(** * cpp_test utility scripts: convert_svg_to_jpg.py and serve_animation.py

    A shallow embedding of the two Python scripts and the properties of
    their observable behaviour.

    Modelling conventions.
    - A Python [str] is a Rocq [string]; non-ASCII text (the check mark and
      the cross of the progress lines) is carried as its UTF-8 bytes.
    - [print(s)] appends [s] to the standard output of the process, one
      entry per call (the terminating newline of [print] is implicit).
    - cairosvg, Pillow, [os], [webbrowser], [argparse] and [http.server]
      are libraries outside the repository.  What they return for a given
      input is a field of an environment record; the calls the scripts make
      on them are logged.  Library calls fail with [Exception]-class
      errors, which is what [except Exception] catches; asynchronous
      interrupts are modelled only where the scripts handle them
      ([serve_forever]). *)

From Stdlib Require Import List Bool Arith ZArith Lia.
From Stdlib Require Import Ascii String DecimalString.
From Stdlib Require DecimalNat DecimalFacts.
From Stdlib Require Import Strings.Byte.
Import ListNotations.

Open Scope string_scope.

(** ** Python string operations used by the scripts *)

Module Str.

(** [s.startswith(p)] *)
Fixpoint startswith (s p : string) {struct p} : bool :=
  match p, s with
  | EmptyString, _ => true
  | String _ _, EmptyString => false
  | String a p', String b s' => Ascii.eqb a b && startswith s' p'
  end.

(** [s[n:]] *)
Fixpoint drop (n : nat) (s : string) : string :=
  match n, s with
  | O, _ => s
  | S _, EmptyString => EmptyString
  | S n', String _ s' => drop n' s'
  end.

(** [s.endswith(p)]: the last [len(p)] characters of [s] are [p]. *)
Definition endswith (s p : string) : bool :=
  Nat.leb (length p) (length s) && String.eqb (drop (length s - length p) s) p.

(** The scan of [str.replace] for a non-empty [old]: left to right, an
    occurrence found at the cursor is replaced by [new] and the cursor moves
    past it ([skip] counts the characters of the occurrence still to pass). *)
Fixpoint replace_scan (old new : string) (skip : nat) (s : string) : string :=
  match s with
  | EmptyString => EmptyString
  | String c s' =>
      match skip with
      | S k => replace_scan old new k s'
      | O =>
          if startswith s old
          then new ++ replace_scan old new (length old - 1) s'
          else String c (replace_scan old new 0 s')
      end
  end.

(** [new] before every character of [s] (what [str.replace] does for an
    empty [old], together with one more [new] at the end). *)
Fixpoint intersperse (new s : string) : string :=
  match s with
  | EmptyString => EmptyString
  | String c s' => new ++ String c (intersperse new s')
  end.

(** [s.replace(old, new)], with the default [count = -1]: every
    non-overlapping occurrence, scanning from the left. *)
Definition replace (s old new : string) : string :=
  match old with
  | EmptyString => intersperse new s ++ new
  | String _ _ => replace_scan old new 0 s
  end.

(** [str(n)] for a non-negative integer. *)
Definition of_nat (n : nat) : string := NilEmpty.string_of_uint (Nat.to_uint n).

(** [str(z)] for an integer. *)
Definition of_Z (z : Z) : string := NilEmpty.string_of_int (Z.to_int z).

End Str.

(** ** Errors and results of library calls *)

(** An [Exception]-class error; [str e] is the text that the f-string
    [{e}] interpolates. *)
Inductive Exception : Type := Exc (text : string).

Definition str (e : Exception) : string :=
  match e with Exc text => text end.

Inductive result (A : Type) : Type :=
  | Ok (a : A)
  | Raise (e : Exception).

Arguments Ok {A} a.
Arguments Raise {A} e.

(** The newline character of the ["\n"] escapes. *)
Definition nl : string := String (ascii_of_nat 10) EmptyString.

(** ** convert_svg_to_jpg.py *)

Module Converter.

(** *** Pillow images

    Pillow keeps an RGB and an RGBA image alike as four bytes per pixel;
    the fourth byte of an RGB image is padding. *)

Record Pixel : Type := { R : Z; G : Z; B : Z; A : Z }.

Record Image : Type := {
  mode : string;
  size : nat * nat;            (* (width, height) *)
  data : list Pixel            (* row-major, [width * height] pixels *)
}.

(** [Image.new(mode, size, color)] *)
Definition Image_new (m : string) (sz : nat * nat) (color : Z * Z * Z) : Image :=
  let '(r, g, b) := color in
  {| mode := m;
     size := sz;
     data := repeat {| R := r; G := g; B := b; A := 255 |} (fst sz * snd sz) |}.

(** [image.split()] of a four-band image: the bands, each a mode-L plane. *)
Definition split (im : Image) : list Z * list Z * list Z * list Z :=
  (map R (data im), map G (data im), map B (data im), map A (data im)).

(** [bands[3]] *)
Definition band3 (bands : list Z * list Z * list Z * list Z) : list Z :=
  snd bands.

(** [image.getpixel((x, y))], all four stored bytes. *)
Definition getpixel (im : Image) (xy : nat * nat) : option Pixel :=
  let '(x, y) := xy in
  if (x <? fst (size im))%nat && (y <? snd (size im))%nat
  then nth_error (data im) (y * fst (size im) + x)
  else None.

(** The stored bytes of a white pixel of an RGB image. *)
Definition white : Pixel := {| R := 255; G := 255; B := 255; A := 255 |}.

(** The visible colour of a pixel of an RGB image. *)
Definition rgb (p : Pixel) : Z * Z * Z := (R p, G p, B p).

(** *** The libraries the converter calls *)

Record Lib : Type := {
  (** [os.listdir(path)] *)
  os_listdir : string -> result (list string);
  (** [cairosvg.svg2png(url=...)]: the PNG bytes of the rasterized file *)
  cairosvg_svg2png : string -> result (list byte);
  (** [Image.open(io.BytesIO(png_data))] *)
  Image_open : list byte -> result Image;
  (** [image.convert(mode)] *)
  Image_convert : Image -> string -> result Image;
  (** the per-band blend of [paste] with a mask: [blend mask dst src] *)
  blend : Z -> Z -> Z -> Z;
  (** [image.save(fp, format, quality=, optimize=)] *)
  Image_save : Image -> string -> string -> nat -> bool -> result unit
}.

(** Pillow's blend of one band, [BLEND(mask, in1, in2)] with its rounding
    division by 255. *)
Definition DIV255 (a : Z) : Z :=
  let tmp := (a + 128)%Z in
  Z.shiftr (Z.shiftr tmp 8 + tmp) 8.

Definition pillow_blend (mask dst src : Z) : Z :=
  DIV255 (dst * (255 - mask) + src * mask).

Section WithLib.

Variable L : Lib.

Definition blend_pixel (m : Z) (dst src : Pixel) : Pixel :=
  {| R := blend L m (R dst) (R src);
     G := blend L m (G dst) (G src);
     B := blend L m (B dst) (B src);
     A := blend L m (A dst) (A src) |}.

Fixpoint blend_data (mask : list Z) (dst src : list Pixel) : list Pixel :=
  match mask, dst, src with
  | m :: mask', d :: dst', s :: src' =>
      blend_pixel m d s :: blend_data mask' dst' src'
  | _, _, _ => dst
  end.

(** [dst.paste(src, mask=mask)] with images of one size: every pixel of
    [dst] is blended with the pixel of [src] under the mask value. *)
Definition paste (dst src : Image) (mask : list Z) : Image :=
  {| mode := mode dst;
     size := size dst;
     data := blend_data mask (data dst) (data src) |}.

(** *** The process: standard output and the log of library calls *)

Inductive call : Type :=
  | Listdir (path : string)
  | Svg2png (url : string)
  | Open (png_data : list byte)
  | Convert (im : Image) (m : string)
  | Save (im : Image) (fp format : string) (quality : nat) (optimize : bool).

Record Proc : Type := {
  stdout : list string;
  calls : list call
}.

Definition start : Proc := {| stdout := []; calls := [] |}.

(** A computation changes the process and returns or raises. *)
Definition M (T : Type) : Type := Proc -> Proc * result T.

Definition ret {T} (v : T) : M T := fun p => (p, Ok v).

Definition bind {T U} (m : M T) (k : T -> M U) : M U :=
  fun p =>
    match m p with
    | (p', Ok v) => k v p'
    | (p', Raise e) => (p', Raise e)
    end.

(** [try: body / except Exception as e: handler e] *)
Definition try_except {T} (body : M T) (handler : Exception -> M T) : M T :=
  fun p =>
    match body p with
    | (p', Ok v) => (p', Ok v)
    | (p', Raise e) => handler e p'
    end.

Definition print (s : string) : M unit :=
  fun p => ({| stdout := stdout p ++ [s]; calls := calls p |}, Ok tt).

(** A library call: logged, then its result. *)
Definition lib {T} (c : call) (r : result T) : M T :=
  fun p => ({| stdout := stdout p; calls := calls p ++ [c] |}, r).

Notation "x <- m ;; k" := (bind m (fun x => k))
  (at level 61, m at next level, right associativity).
Notation "m ;;; k" := (bind m (fun _ => k))
  (at level 61, right associativity).

(** [for x in xs: acc = body acc x] *)
Fixpoint for_each {X T} (xs : list X) (acc : T) (body : T -> X -> M T) : M T :=
  match xs with
  | [] => ret acc
  | x :: xs' => acc' <- body acc x ;; for_each xs' acc' body
  end.

(** *** The script *)

(** The body of the [try] statement of [convert_svg_to_jpg]. *)
Definition convert_try (svg_file jpg_file : string) (quality : nat) : M bool :=
  png_data <- lib (Svg2png svg_file) (cairosvg_svg2png L svg_file) ;;
  image <- lib (Open png_data) (Image_open L png_data) ;;
  image <-
    (if String.eqb (mode image) "RGBA" then
       let rgb_image := Image_new "RGB" (size image) (255, 255, 255)%Z in
       let rgb_image := paste rgb_image image (band3 (split image)) in
       ret rgb_image
     else if negb (String.eqb (mode image) "RGB") then
       lib (Convert image "RGB") (Image_convert L image "RGB")
     else ret image) ;;
  lib (Save image jpg_file "JPEG" quality true)
      (Image_save L image jpg_file "JPEG" quality true) ;;;
  print ("✓ Converted: " ++ svg_file ++ " -> " ++ jpg_file) ;;;
  ret true.

Definition convert_svg_to_jpg (svg_file jpg_file : string) (quality : nat)
  : M bool :=
  try_except
    (convert_try svg_file jpg_file quality)
    (fun e =>
       print ("✗ Error converting " ++ svg_file ++ ": " ++ str e) ;;;
       ret false).

(** The default of the [quality] parameter. *)
Definition quality_default : nat := 95.

(** [svg_file.replace('.svg', '.jpg')] *)
Definition jpg_file_of (svg_file : string) : string :=
  Str.replace svg_file ".svg" ".jpg".

(** [[f for f in names if f.endswith('.svg')]] *)
Definition svg_files_of (names : list string) : list string :=
  filter (fun f => Str.endswith f ".svg") names.

Definition main : M unit :=
  names <- lib (Listdir ".") (os_listdir L ".") ;;
  let svg_files := svg_files_of names in
  match svg_files with
  | [] => print "No SVG files found in current directory"
  | _ :: _ =>
      print ("Found " ++ Str.of_nat (List.length svg_files)
             ++ " SVG files to convert" ++ nl) ;;;
      success_count <-
        for_each svg_files 0%nat (fun success_count svg_file =>
          let jpg_file := jpg_file_of svg_file in
          ok <- convert_svg_to_jpg svg_file jpg_file quality_default ;;
          ret (if ok then (success_count + 1)%nat else success_count)) ;;
      print (nl ++ "✓ Successfully converted " ++ Str.of_nat success_count
             ++ "/" ++ Str.of_nat (List.length svg_files) ++ " files")
  end.

(** Running the script as a program: [main()] is called, and the process
    exits with status 0 when it returns and with status 1 when an exception
    reaches the top level. *)
Definition run : Proc * Z :=
  match main start with
  | (p, Ok _) => (p, 0%Z)
  | (p, Raise _) => (p, 1%Z)
  end.

Definition exit_status : Z := snd run.
Definition output : list string := stdout (fst run).
Definition library_calls : list call := calls (fst run).

(** *** Observations on one file of the batch *)

(** The exception raised within the conversion of [svg_file], if any. *)
Definition failure (svg_file : string) : option Exception :=
  match snd (convert_try svg_file (jpg_file_of svg_file) quality_default start) with
  | Ok _ => None
  | Raise e => Some e
  end.

(** The library calls of the conversion of [svg_file]. *)
Definition calls_of (svg_file : string) : list call :=
  calls (fst (convert_try svg_file (jpg_file_of svg_file) quality_default start)).

(** The line printed for [svg_file]. *)
Definition report (svg_file : string) : string :=
  match failure svg_file with
  | None => "✓ Converted: " ++ svg_file ++ " -> " ++ jpg_file_of svg_file
  | Some e => "✗ Error converting " ++ svg_file ++ ": " ++ str e
  end.

Definition succeeded (svg_file : string) : bool :=
  match failure svg_file with None => true | Some _ => false end.

(** The two lines that frame the per-file lines. *)
Definition found_line (total : nat) : string :=
  "Found " ++ Str.of_nat total ++ " SVG files to convert" ++ nl.

Definition tally_line (success_count total : nat) : string :=
  nl ++ "✓ Successfully converted " ++ Str.of_nat success_count
  ++ "/" ++ Str.of_nat total ++ " files".

(** The body of the loop of [main]. *)
Definition loop_body (success_count : nat) (svg_file : string) : M nat :=
  ok <- convert_svg_to_jpg svg_file (jpg_file_of svg_file) quality_default ;;
  ret (if ok then (success_count + 1)%nat else success_count).

(** The number of files of the batch whose conversion raised nothing. *)
Definition converted (svg_files : list string) : nat :=
  List.length (filter succeeded svg_files).

(** The process [p] after the output and calls of [d]. *)
Definition after (p d : Proc) : Proc :=
  {| stdout := stdout p ++ stdout d; calls := calls p ++ calls d |}.

(** A computation that only appends to the process, whatever it holds. *)
Definition framed {T} (m : M T) : Prop :=
  forall p, m p = (after p (fst (m start)), snd (m start)).

End WithLib.

(** *** Observations on a log of library calls *)

(** The two lines a conversion can print. *)
Definition success_line (svg_file jpg_file : string) : string :=
  "✓ Converted: " ++ svg_file ++ " -> " ++ jpg_file.

Definition failure_line (svg_file : string) (e : Exception) : string :=
  "✗ Error converting " ++ svg_file ++ ": " ++ str e.

(** The files handed to the rasterizer, in order. *)
Definition rasterized (cs : list call) : list string :=
  flat_map (fun c => match c with Svg2png url => [url] | _ => [] end) cs.

Definition is_save (c : call) : bool :=
  match c with Save _ _ _ _ _ => true | _ => false end.

(** The paths handed to [save], in order. *)
Definition saved_paths (cs : list call) : list string :=
  flat_map (fun c => match c with Save _ fp _ _ _ => [fp] | _ => [] end) cs.

(** *** The imports at the top of the script

    [try: import cairosvg ... / except ImportError: print(...);
    os.system("pip3 install ..."); import cairosvg ...], then [main()]. *)

Inductive import_outcome : Type :=
  | Imported
  | RaisesImportError         (* a module is not installed *)
  | RaisesOther.              (* any other exception of the import *)

Record Site : Type := {
  first_import : import_outcome;
  second_import : import_outcome     (* after the installer has run *)
}.

Definition pip_command : string := "pip3 install --user cairosvg pillow".

Record Outcome : Type := {
  printed : list string;             (* the lines the script prints *)
  shell : list string;               (* commands given to [os.system] *)
  lib_calls : list call;
  status : Z
}.

(** The whole script run as a program. *)
Definition script (S : Site) (L : Lib) : Outcome :=
  match first_import S with
  | Imported =>
      match main L start with
      | (p, Ok _) =>
          {| printed := stdout p; shell := []; lib_calls := calls p; status := 0 |}
      | (p, Raise _) =>
          {| printed := stdout p; shell := []; lib_calls := calls p; status := 1 |}
      end
  | RaisesImportError =>
      let p0 := {| stdout := ["Installing required packages..."]; calls := [] |} in
      match second_import S with
      | Imported =>
          match main L p0 with
          | (p, Ok _) =>
              {| printed := stdout p; shell := [pip_command];
                 lib_calls := calls p; status := 0 |}
          | (p, Raise _) =>
              {| printed := stdout p; shell := [pip_command];
                 lib_calls := calls p; status := 1 |}
          end
      | _ =>
          {| printed := stdout p0; shell := [pip_command];
             lib_calls := []; status := 1 |}
      end
  | RaisesOther =>
      {| printed := []; shell := []; lib_calls := []; status := 1 |}
  end.

End Converter.

(** ** serve_animation.py *)

Module Server.

(** *** The request handler

    What [http.server] keeps of a response while it is built: the header
    lines buffered by [send_header], and what has been written to the
    connection.  A header block is written in one piece when the headers
    are flushed. *)

Inductive chunk : Type :=
  | Head (lines : list string)      (* status line and headers, flushed *)
  | Body (content : string).

Record Handler : Type := {
  path : string;
  headers_buffer : list string;
  wfile : list chunk
}.

Definition CRLF : string :=
  String (ascii_of_nat 13) (String (ascii_of_nat 10) EmptyString).

(** The handler of a fresh request for [target]. *)
Definition request (target : string) : Handler :=
  {| path := target; headers_buffer := []; wfile := [] |}.

Definition set_path (p : string) (h : Handler) : Handler :=
  {| path := p; headers_buffer := headers_buffer h; wfile := wfile h |}.

(** [BaseHTTPRequestHandler.send_response_only]: the status line is buffered. *)
Definition send_response_only (code : Z) (message : string) (h : Handler)
  : Handler :=
  {| path := path h;
     headers_buffer :=
       headers_buffer h
       ++ ["HTTP/1.0 " ++ Str.of_Z code ++ " " ++ message ++ CRLF];
     wfile := wfile h |}.

(** [BaseHTTPRequestHandler.send_header] *)
Definition send_header (keyword value : string) (h : Handler) : Handler :=
  {| path := path h;
     headers_buffer := headers_buffer h ++ [keyword ++ ": " ++ value ++ CRLF];
     wfile := wfile h |}.

(** [BaseHTTPRequestHandler.flush_headers] *)
Definition flush_headers (h : Handler) : Handler :=
  {| path := path h;
     headers_buffer := [];
     wfile := wfile h ++ [Head (headers_buffer h)] |}.

(** [SimpleHTTPRequestHandler.end_headers]: the blank line, then the flush. *)
Definition base_end_headers (h : Handler) : Handler :=
  flush_headers
    {| path := path h;
       headers_buffer := headers_buffer h ++ [CRLF];
       wfile := wfile h |}.

(** [self.wfile.write(content)] *)
Definition write (content : string) (h : Handler) : Handler :=
  {| path := path h;
     headers_buffer := headers_buffer h;
     wfile := wfile h ++ [Body content] |}.

(** [Handler.end_headers], the override of the script. *)
Definition end_headers (h : Handler) : Handler :=
  let h := send_header "Access-Control-Allow-Origin" "*" h in
  base_end_headers h.

(** The calls the library code makes on [self] while it answers a request.
    [self.end_headers()] is dispatched on the object, so it reaches the
    override. *)
Inductive call : Type :=
  | SendResponseOnly (code : Z) (message : string)
  | SendHeader (keyword value : string)
  | EndHeaders
  | Write (content : string).

Definition exec (c : call) (h : Handler) : Handler :=
  match c with
  | SendResponseOnly code message => send_response_only code message h
  | SendHeader keyword value => send_header keyword value h
  | EndHeaders => end_headers h
  | Write content => write content h
  end.

Definition exec_all (cs : list call) (h : Handler) : Handler :=
  fold_left (fun h c => exec c h) cs h.

Section WithFileServer.

(** [SimpleHTTPRequestHandler.do_GET], the file-serving logic of the
    library: the calls it makes on the handler, decided by [self.path]
    (the directory served is fixed). *)
Variable SimpleHTTPRequestHandler_do_GET : string -> list call.

Definition super_do_GET (h : Handler) : Handler :=
  exec_all (SimpleHTTPRequestHandler_do_GET (path h)) h.

(** [Handler.do_GET] *)
Definition do_GET (h : Handler) : Handler :=
  let h :=
    if String.eqb (path h) "" || String.eqb (path h) "/"
    then set_path "/mpmc_animation.html" h
    else h in
  super_do_GET h.

(** The reply to a GET for [target]: everything written to the connection. *)
Definition reply (target : string) : list chunk :=
  wfile (do_GET (request target)).

(** The bodies of a reply. *)
Definition bodies (w : list chunk) : list string :=
  flat_map (fun c => match c with Body b => [b] | Head _ => [] end) w.

End WithFileServer.

(** The header line the override adds. *)
Definition cors_line : string := "Access-Control-Allow-Origin: *" ++ CRLF.

(** A chunk that is a header block carries the header line. *)
Definition has_cors (c : chunk) : Prop :=
  match c with
  | Head lines => In cors_line lines
  | Body _ => True
  end.

(** The header blocks of what was written. *)
Definition heads (w : list chunk) : list (list string) :=
  flat_map (fun c => match c with Head lines => [lines] | Body _ => [] end) w.

Definition is_end_headers (c : call) : bool :=
  match c with EndHeaders => true | _ => false end.

(** A file-serving logic that answers with the path it is asked for. *)
Definition echo (p : string) : list call :=
  [SendResponseOnly 200 "OK"; EndHeaders; Write p].

(** A file-serving logic in a directory that holds the animation only. *)
Definition animation_only (p : string) : list call :=
  if String.eqb p "/mpmc_animation.html"
  then [SendResponseOnly 200 "OK"; SendHeader "Content-type" "text/html";
        EndHeaders; Write "<html>animation</html>"]
  else [SendResponseOnly 404 "File not found"; SendHeader "Connection" "close";
        EndHeaders; Write "Error response"].

(** *** The command line *)

Record Args : Type := {
  port : Z;
  host : string;
  open : bool
}.

(** The defaults of the three [add_argument] calls. *)
Definition defaults : Args :=
  {| port := 8000; host := "0.0.0.0"; open := false |}.

Definition set_port (v : Z) (a : Args) : Args :=
  {| port := v; host := host a; open := open a |}.
Definition set_host (v : string) (a : Args) : Args :=
  {| port := port a; host := v; open := open a |}.
Definition set_open (v : bool) (a : Args) : Args :=
  {| port := port a; host := host a; open := v |}.

Inductive parsed : Type :=
  | Parsed (a : Args)
  | UsageError              (* argparse prints the usage and exits with 2 *)
  | OtherForm.              (* a token form this model does not cover *)

Definition is_digit (c : ascii) : bool :=
  (48 <=? nat_of_ascii c)%nat && (nat_of_ascii c <=? 57)%nat.

Fixpoint all_digits (s : string) : bool :=
  match s with
  | EmptyString => true
  | String c s' => is_digit c && all_digits s'
  end.

(** [int(v)] on a non-empty run of ASCII digits. *)
Definition int_of_digits (v : string) : option Z :=
  match v with
  | EmptyString => None
  | String _ _ =>
      if all_digits v
      then option_map (fun d => Z.of_nat (Nat.of_uint d)) (NilEmpty.uint_of_string v)
      else None
  end.

(** [parser.parse_args()] on the exact option strings, each value given as
    the next token: [--port V], [-p V], [--host V], [--open].  Every
    other token form (a value that starts with [-], an integer written
    other than as plain digits, an abbreviated option, [--opt=V], a
    positional argument) is [OtherForm]. *)
Fixpoint parse_args (argv : list string) (ns : Args) : parsed :=
  match argv with
  | [] => Parsed ns
  | tok :: rest =>
      if String.eqb tok "--open" then parse_args rest (set_open true ns)
      else if String.eqb tok "--port" || String.eqb tok "-p" then
        match rest with
        | [] => UsageError
        | v :: rest' =>
            if Str.startswith v "-" then OtherForm
            else match int_of_digits v with
                 | Some n => parse_args rest' (set_port n ns)
                 | None => OtherForm
                 end
        end
      else if String.eqb tok "--host" then
        match rest with
        | [] => UsageError
        | v :: rest' =>
            if Str.startswith v "-" then OtherForm
            else parse_args rest' (set_host v ns)
        end
      else OtherForm
  end.

(** *** The process *)

Inductive serve_outcome : Type :=
  | Forever                       (* the loop never returns *)
  | KeyboardInterrupt
  | Failed (e : Exception).

Record Env : Type := {
  argv : list string;                             (* [sys.argv[1:]] *)
  os_getcwd : string;
  (** [ThreadingHTTPServer(addr, Handler)]: binding the address *)
  bind_server : string -> Z -> result unit;
  (** [webbrowser.open(url)] *)
  webbrowser_open : string -> result bool;
  (** [httpd.serve_forever()] *)
  serve_forever : serve_outcome
}.

Definition with_argv (av : list string) (E : Env) : Env :=
  {| argv := av;
     os_getcwd := os_getcwd E;
     bind_server := bind_server E;
     webbrowser_open := webbrowser_open E;
     serve_forever := serve_forever E |}.

Inductive event : Type :=
  | Chdir (dir : string)
  | Bind (host : string) (port : Z)
  | Print (line : string)
  | Browser (url : string)
  | ServeForever
  | ServerClose.

Inductive status : Type :=
  | Serving                       (* inside [serve_forever], for good *)
  | Exited (code : Z).

Record Run : Type := {
  trace : list event;
  final : status
}.

Definition url_of (a : Args) : string :=
  "http://127.0.0.1:" ++ Str.of_Z (port a) ++ "/".

(** [main] from [httpd.serve_forever()] on. *)
Definition serve_loop (E : Env) (before : list event) : Run :=
  match serve_forever E with
  | Forever =>
      {| trace := (before ++ [ServeForever])%list; final := Serving |}
  | KeyboardInterrupt =>
      {| trace := (before ++ [ServeForever; Print (nl ++ "Shutting down");
                              ServerClose])%list;
         final := Exited 0 |}
  | Failed _ =>
      {| trace := (before ++ [ServeForever])%list; final := Exited 1 |}
  end.

(** [main] after [parse_args]. *)
Definition main_with (E : Env) (args : Args) : Run :=
  let cwd := os_getcwd E in
  let t := [Chdir cwd; Bind (host args) (port args)] in
  match bind_server E (host args) (port args) with
  | Raise _ => {| trace := t; final := Exited 1 |}
  | Ok _ =>
      let url := url_of args in
      let t := (t ++ [Print ("Serving " ++ cwd ++ " at " ++ url
                             ++ " (press Ctrl-C to stop)")])%list in
      let t :=
        if open args then
          match webbrowser_open E url with
          | Ok _ => (t ++ [Browser url])%list
          | Raise _ => (t ++ [Browser url])%list    (* except Exception: pass *)
          end
        else t in
      serve_loop E t
  end.

Definition main (E : Env) : option Run :=
  match parse_args (argv E) defaults with
  | Parsed args => Some (main_with E args)
  | UsageError => Some {| trace := []; final := Exited 2 |}
  | OtherForm => None
  end.

(** What the process printed. *)
Definition printed (r : Run) : list string :=
  flat_map (fun ev => match ev with Print s => [s] | _ => [] end) (trace r).

(** The addresses the process bound. *)
Definition bound (r : Run) : list (string * Z) :=
  flat_map (fun ev => match ev with Bind h p => [(h, p)] | _ => [] end) (trace r).

(** The browser launches the process attempted. *)
Definition browser_attempts (r : Run) : list string :=
  flat_map (fun ev => match ev with Browser u => [u] | _ => [] end) (trace r).

Definition is_browser (ev : event) : bool :=
  match ev with Browser _ => true | _ => false end.

(** *** Further observations on the handler *)

(** What the library writes as bodies, in order. *)
Definition writes (cs : list call) : list string :=
  flat_map (fun c => match c with Write content => [content] | _ => [] end) cs.

(** The header lines the library sends itself. *)
Definition sent_headers (cs : list call) : list string :=
  flat_map (fun c => match c with
                     | SendHeader keyword value => [keyword ++ ": " ++ value ++ CRLF]
                     | _ => []
                     end) cs.

(** A header block that ends with the added header and the blank line. *)
Definition ends_with_cors (c : chunk) : Prop :=
  match c with
  | Head lines => exists sent, lines = (sent ++ [cors_line; CRLF])%list
  | Body _ => True
  end.

(** A header block that carries the added header once. *)
Definition has_cors_once (c : chunk) : Prop :=
  match c with
  | Head lines => count_occ string_dec lines cors_line = 1%nat
  | Body _ => True
  end.

(** A HEAD logic that names the path it is asked for in a header. *)
Definition head_echo (p : string) : list call :=
  [SendResponseOnly 200 "OK"; SendHeader "X-Path" p; EndHeaders].

Section WithHeadLogic.

(** [SimpleHTTPRequestHandler.do_HEAD]: the calls it makes on the handler,
    decided by [self.path]. *)
Variable SimpleHTTPRequestHandler_do_HEAD : string -> list call.

(** [Handler] defines [end_headers] and [do_GET] only: [do_HEAD] is the
    inherited method, run on the handler with its overridden
    [end_headers]. *)
Definition do_HEAD (h : Handler) : Handler :=
  exec_all (SimpleHTTPRequestHandler_do_HEAD (path h)) h.

End WithHeadLogic.

End Server.

(** ** Example scenarios *)

Module Scenario.

Import Converter.

Definition logo_png : list byte := [x89; x50; x4e; x47; x01].
Definition icon_png : list byte := [x89; x50; x4e; x47; x02].
Definition gray_png : list byte := [x89; x50; x4e; x47; x03].

(** A fully opaque image with an alpha channel. *)
Definition logo : Image :=
  {| mode := "RGBA"; size := (2, 1);
     data := [ {| R := 200; G := 30; B := 30; A := 255 |};
               {| R := 20; G := 20; B := 160; A := 255 |} ] |}.

(** An image with a fully transparent pixel at [(1, 0)] and a half
    transparent one at [(0, 1)]. *)
Definition icon : Image :=
  {| mode := "RGBA"; size := (2, 2);
     data := [ {| R := 200; G := 30; B := 30; A := 255 |};
               {| R := 7; G := 8; B := 9; A := 0 |};
               {| R := 0; G := 0; B := 0; A := 128 |};
               {| R := 20; G := 20; B := 160; A := 255 |} ] |}.

(** A grayscale image. *)
Definition gray : Image :=
  {| mode := "L"; size := (1, 1);
     data := [ {| R := 90; G := 0; B := 0; A := 0 |} ] |}.

Definition gray_as_rgb : Image :=
  {| mode := "RGB"; size := (1, 1);
     data := [ {| R := 90; G := 90; B := 90; A := 255 |} ] |}.

Definition parse_error : Exception := Exc "no element found: line 1, column 0".

(** A directory with [logo.svg] (valid), [broken.svg] (malformed) and a
    file that is no SVG; [icon.svg] and [gray.svg] can be rasterized too. *)
Definition studio : Lib :=
  {| os_listdir := fun _ => Ok ["logo.svg"; "notes.txt"; "broken.svg"];
     cairosvg_svg2png := fun url =>
       if String.eqb url "logo.svg" then Ok logo_png
       else if String.eqb url "icon.svg" then Ok icon_png
       else if String.eqb url "gray.svg" then Ok gray_png
       else Raise parse_error;
     Image_open := fun png =>
       match png with
       | [_; _; _; _; x01] => Ok logo
       | [_; _; _; _; x02] => Ok icon
       | [_; _; _; _; x03] => Ok gray
       | _ => Raise (Exc "cannot identify image file")
       end;
     Image_convert := fun im m =>
       if String.eqb (mode im) "L" then Ok gray_as_rgb
       else Raise (Exc "conversion not supported");
     blend := pillow_blend;
     Image_save := fun _ _ _ _ _ => Ok tt |}.

(** The same directory when nothing in it can be rasterized. *)
Definition all_broken : Lib :=
  {| os_listdir := os_listdir studio;
     cairosvg_svg2png := fun _ => Raise parse_error;
     Image_open := Image_open studio;
     Image_convert := Image_convert studio;
     blend := pillow_blend;
     Image_save := Image_save studio |}.

(** A directory without SVG files. *)
Definition no_svg : Lib :=
  {| os_listdir := fun _ => Ok ["notes.txt"; "logo.svg.bak"; "svg"];
     cairosvg_svg2png := cairosvg_svg2png studio;
     Image_open := Image_open studio;
     Image_convert := Image_convert studio;
     blend := pillow_blend;
     Image_save := Image_save studio |}.

(** A directory of one file [art.svg], with the same answer of each
    library call whatever its arguments. *)
Definition fixed (png : result (list byte)) (opened converted : result Image)
    (saved : result unit) : Lib :=
  {| os_listdir := fun _ => Ok ["art.svg"];
     cairosvg_svg2png := fun _ => png;
     Image_open := fun _ => opened;
     Image_convert := fun _ _ => converted;
     blend := pillow_blend;
     Image_save := fun _ _ _ _ _ => saved |}.

(** The raster cannot be opened. *)
Definition truncated : Lib :=
  fixed (Ok logo_png) (Raise (Exc "cannot identify image file"))
        (Ok gray_as_rgb) (Ok tt).

(** The library cannot convert the image to RGB. *)
Definition unconvertible : Lib :=
  fixed (Ok gray_png) (Ok gray) (Raise (Exc "conversion not supported")) (Ok tt).

(** The directory cannot be written. *)
Definition read_only : Lib :=
  fixed (Ok logo_png) (Ok logo) (Ok gray_as_rgb) (Raise (Exc "Permission denied")).

(** A machine without the imaging packages, where the installer works. *)
Definition fresh_machine : Site :=
  {| first_import := RaisesImportError; second_import := Imported |}.

(** A machine without the packages, where the installer does not help. *)
Definition offline : Site :=
  {| first_import := RaisesImportError; second_import := RaisesImportError |}.

(** A machine without a usable browser, the server started with [--open]. *)
Definition headless : Server.Env :=
  {| Server.argv := ["--open"; "--port"; "8080"];
     Server.os_getcwd := "/srv/animation";
     Server.bind_server := fun _ _ => Ok tt;
     Server.webbrowser_open := fun _ => Raise (Exc "could not locate runnable browser");
     Server.serve_forever := Server.KeyboardInterrupt |}.

(** The port is taken by another process. *)
Definition port_in_use : Server.Env :=
  {| Server.argv := ["--open"];
     Server.os_getcwd := "/srv/animation";
     Server.bind_server := fun _ _ => Raise (Exc "[Errno 98] Address already in use");
     Server.webbrowser_open := fun _ => Ok true;
     Server.serve_forever := Server.Forever |}.

(** The server started without arguments. *)
Definition plain : Server.Env :=
  Server.with_argv [] headless.

End Scenario.

(** ** The reading of the specification compared with the code *)

Module Reading.

(** "replacing the first occurrence of [old]": the leftmost occurrence is
    replaced and the rest of the string is kept as it is. *)
Fixpoint replace_first (s old new : string) : string :=
  match s with
  | EmptyString => EmptyString
  | String c s' =>
      if Str.startswith s old
      then new ++ Str.drop (length old) s
      else String c (replace_first s' old new)
  end.

End Reading.

(** * Properties *)

(** ** Strings *)

Example replace_one_occurrence : Str.replace "logo.svg" ".svg" ".jpg" = "logo.jpg".
Proof. reflexivity. Qed.

Example replace_no_occurrence : Str.replace "notes.txt" ".svg" ".jpg" = "notes.txt".
Proof. reflexivity. Qed.

Example replace_empty_old : Str.replace "abc" "" "-" = "-a-b-c-".
Proof. reflexivity. Qed.

Example endswith_suffix : Str.endswith "a.svg" ".svg" = true.
Proof. reflexivity. Qed.

Example endswith_inside : Str.endswith "a.svg.bak" ".svg" = false.
Proof. reflexivity. Qed.

Example endswith_short : Str.endswith "svg" ".svg" = false.
Proof. reflexivity. Qed.

Section StrFacts.

Lemma jpg_file_of_nil : Converter.jpg_file_of "" = "".
Proof. reflexivity. Qed.

Lemma jpg_file_of_hit (r : string) :
  Converter.jpg_file_of (".svg" ++ r) = ".jpg" ++ Converter.jpg_file_of r.
Proof. reflexivity. Qed.

Lemma jpg_file_of_miss (c : ascii) (r : string) :
  Str.startswith (String c r) ".svg" = false ->
  Converter.jpg_file_of (String c r) = String c (Converter.jpg_file_of r).
Proof.
  intros H. unfold Converter.jpg_file_of, Str.replace.
  cbn [Str.replace_scan]. rewrite H. reflexivity.
Qed.

Lemma startswith_svg_shape (s : string) :
  Str.startswith s ".svg" = true -> exists r, s = ".svg" ++ r.
Proof.
  destruct s as [|a [|b [|c [|d r]]]]; cbn [Str.startswith];
    rewrite ?andb_false_r; try discriminate.
  intros H. repeat (apply andb_prop in H; destruct H as [?E H]).
  apply Ascii.eqb_eq in E, E0, E1, E2. subst. exists r. reflexivity.
Qed.

(** Induction along the scan: the string is empty, or starts with an
    occurrence, or starts with a character that opens none. *)
Lemma svg_scan_ind (P : string -> Prop) :
  P "" ->
  (forall r, P r -> P (".svg" ++ r)) ->
  (forall c r, Str.startswith (String c r) ".svg" = false -> P r ->
               P (String c r)) ->
  forall s, P s.
Proof.
  intros Hnil Hhit Hmiss s.
  remember (length s) as n eqn:En. revert s En.
  induction n as [n IH] using lt_wf_ind. intros s En.
  destruct s as [|c r]; [exact Hnil|].
  destruct (Str.startswith (String c r) ".svg") eqn:Hs.
  - destruct (startswith_svg_shape _ Hs) as [r' Er']. rewrite Er'.
    apply Hhit. apply (IH (length r')); [|reflexivity].
    subst n. rewrite Er'. cbn. lia.
  - apply Hmiss; [exact Hs|]. apply (IH (length r)); [|reflexivity].
    subst n. cbn. lia.
Qed.

Lemma jpg_file_of_length (f : string) :
  length (Converter.jpg_file_of f) = length f.
Proof.
  induction f as [|r IH|c r Hs IH] using svg_scan_ind.
  - reflexivity.
  - rewrite jpg_file_of_hit. cbn [length append]. rewrite IH. reflexivity.
  - rewrite (jpg_file_of_miss _ _ Hs). cbn [length]. rewrite IH. reflexivity.
Qed.

Lemma jpg_file_of_occurrence (f : string) (i : nat) :
  Str.startswith (Str.drop i f) ".svg" = true ->
  Str.startswith (Str.drop i (Converter.jpg_file_of f)) ".jpg" = true.
Proof.
  revert i. induction f as [|r IH|c r Hs IH] using svg_scan_ind; intros i H.
  - destruct i; discriminate H.
  - rewrite jpg_file_of_hit.
    destruct i as [|[|[|[|j]]]]; try reflexivity; try discriminate H.
    cbn [Str.drop append] in H |- *. apply IH. exact H.
  - rewrite (jpg_file_of_miss _ _ Hs).
    destruct i as [|j].
    + cbn [Str.drop] in H. rewrite Hs in H. discriminate.
    + cbn [Str.drop] in H |- *. apply IH. exact H.
Qed.

Lemma jpg_file_of_elsewhere (f : string) (i : nat) :
  (forall k, k <= i < k + 4 -> Str.startswith (Str.drop k f) ".svg" = false) ->
  get i (Converter.jpg_file_of f) = get i f.
Proof.
  revert i. induction f as [|r IH|c r Hs IH] using svg_scan_ind; intros i H.
  - reflexivity.
  - rewrite jpg_file_of_hit.
    assert (H0 : 4 <= i).
    { destruct (le_lt_dec 4 i) as [Hle|Hlt]; [exact Hle|].
      specialize (H 0 (conj (Nat.le_0_l i) Hlt)). discriminate H. }
    destruct i as [|[|[|[|j]]]]; try lia.
    cbn [get append]. apply IH. intros k Hk. apply (H (4 + k)). lia.
  - rewrite (jpg_file_of_miss _ _ Hs).
    destruct i as [|j]; [reflexivity|].
    cbn [get]. apply IH. intros k Hk. apply (H (S k)). lia.
Qed.

Lemma drop_length (n : nat) (s : string) :
  length (Str.drop n s) = length s - n.
Proof.
  revert s. induction n as [|n IH]; intros [|c s]; cbn [Str.drop length];
    try reflexivity.
  apply IH.
Qed.

Lemma startswith_refl (s : string) : Str.startswith s s = true.
Proof.
  induction s as [|c s IH]; [reflexivity|].
  cbn [Str.startswith]. rewrite Ascii.eqb_refl. exact IH.
Qed.

Lemma startswith_same_length (s p : string) :
  Str.startswith s p = true -> length s = length p -> s = p.
Proof.
  revert s. induction p as [|a p IH]; intros [|b s]; cbn [Str.startswith length];
    try discriminate; try reflexivity.
  intros H Hl. apply andb_prop in H. destruct H as [Hc Hs].
  apply Ascii.eqb_eq in Hc. subst b. f_equal. apply IH; [exact Hs|lia].
Qed.

Lemma endswith_occurrence (s p : string) :
  Str.endswith s p = true <->
  length p <= length s /\ Str.startswith (Str.drop (length s - length p) s) p = true.
Proof.
  unfold Str.endswith. rewrite andb_true_iff, Nat.leb_le, String.eqb_eq.
  split; intros [Hl H]; split; try exact Hl.
  - rewrite H. apply startswith_refl.
  - apply startswith_same_length; [exact H|].
    rewrite drop_length. lia.
Qed.

Lemma jpg_file_of_endswith (f : string) :
  Str.endswith f ".svg" = true ->
  Str.endswith (Converter.jpg_file_of f) ".jpg" = true.
Proof.
  rewrite !endswith_occurrence, jpg_file_of_length.
  intros [Hl H]. split; [exact Hl|].
  apply jpg_file_of_occurrence. exact H.
Qed.

End StrFacts.

(** ** The converter: one file, then the batch *)

Section ConverterFacts.

Import Converter.

Variable L : Lib.

Lemma after_start_l (d : Proc) : after start d = d.
Proof. destruct d. reflexivity. Qed.

Lemma after_start_r (p : Proc) : after p start = p.
Proof. destruct p. unfold after. cbn. rewrite !app_nil_r. reflexivity. Qed.

Lemma after_assoc (p d e : Proc) : after (after p d) e = after p (after d e).
Proof. unfold after. cbn. rewrite !app_assoc. reflexivity. Qed.

Lemma framed_ret {T} (v : T) : framed (ret v).
Proof. intros p. unfold ret. cbn. rewrite after_start_r. reflexivity. Qed.

Lemma framed_print (s : string) : framed (print s).
Proof.
  intros p. unfold print, after. cbn. rewrite app_nil_r. reflexivity.
Qed.

Lemma framed_lib {T} (c : call) (r : result T) : framed (lib c r).
Proof.
  intros p. unfold lib, after. cbn. rewrite app_nil_r. reflexivity.
Qed.

Lemma framed_bind {T U} (m : M T) (k : T -> M U) :
  framed m -> (forall v, framed (k v)) -> framed (bind m k).
Proof.
  intros Hm Hk p. unfold bind. rewrite (Hm p).
  destruct (m start) as [d [v|e]]; cbn [fst snd].
  - rewrite (Hk v (after p d)), (Hk v d).
    cbn [fst snd]. rewrite after_assoc. reflexivity.
  - reflexivity.
Qed.

Lemma framed_try_except {T} (m : M T) (handler : Exception -> M T) :
  framed m -> (forall e, framed (handler e)) -> framed (try_except m handler).
Proof.
  intros Hm Hh p. unfold try_except. rewrite (Hm p).
  destruct (m start) as [d [v|e]]; cbn [fst snd].
  - reflexivity.
  - rewrite (Hh e (after p d)), (Hh e d).
    cbn [fst snd]. rewrite after_assoc. reflexivity.
Qed.

Lemma framed_if {T} (b : bool) (m1 m2 : M T) :
  framed m1 -> framed m2 -> framed (if b then m1 else m2).
Proof. destruct b; auto. Qed.

Create HintDb framed.
#[local] Hint Resolve framed_ret framed_print framed_lib framed_if : framed.

Ltac solve_framed :=
  repeat first
    [ apply framed_bind; [|intros ?]
    | apply framed_try_except; [|intros ?]
    | solve [auto with framed] ].

Lemma framed_convert_try (svg_file jpg_file : string) (q : nat) :
  framed (convert_try L svg_file jpg_file q).
Proof. unfold convert_try. solve_framed. Qed.

Lemma framed_convert_svg_to_jpg (svg_file jpg_file : string) (q : nat) :
  framed (convert_svg_to_jpg L svg_file jpg_file q).
Proof.
  unfold convert_svg_to_jpg. apply framed_try_except.
  - apply framed_convert_try.
  - intros e. solve_framed.
Qed.

(** The [try] body prints its success line last, and only when nothing
    was raised before. *)
Lemma convert_try_start (svg_file jpg_file : string) (q : nat) :
  match snd (convert_try L svg_file jpg_file q start) with
  | Ok v =>
      v = true
      /\ stdout (fst (convert_try L svg_file jpg_file q start))
         = ["✓ Converted: " ++ svg_file ++ " -> " ++ jpg_file]
  | Raise _ => stdout (fst (convert_try L svg_file jpg_file q start)) = []
  end.
Proof.
  unfold convert_try, bind, lib, print, ret, start. cbn [stdout calls].
  destruct (cairosvg_svg2png L svg_file) as [png|e]; [|reflexivity].
  destruct (Image_open L png) as [image|e]; [|reflexivity].
  destruct (String.eqb (mode image) "RGBA").
  - cbn [stdout calls].
    destruct (Image_save L _ jpg_file "JPEG" q true); cbn; auto.
  - destruct (negb (String.eqb (mode image) "RGB")); cbn [stdout calls].
    + destruct (Image_convert L image "RGB") as [im'|e]; [|reflexivity].
      destruct (Image_save L _ jpg_file "JPEG" q true); cbn; auto.
    + destruct (Image_save L _ jpg_file "JPEG" q true); cbn; auto.
Qed.

(** One conversion: one line, the calls of the attempt, and a boolean;
    never an exception. *)
Lemma convert_svg_to_jpg_run (svg_file : string) (p : Proc) :
  convert_svg_to_jpg L svg_file (jpg_file_of svg_file) quality_default p
  = ({| stdout := stdout p ++ [report L svg_file];
        calls := calls p ++ calls_of L svg_file |},
     Ok (succeeded L svg_file)).
Proof.
  unfold convert_svg_to_jpg, try_except.
  rewrite (framed_convert_try svg_file (jpg_file_of svg_file) quality_default p).
  pose proof (convert_try_start svg_file (jpg_file_of svg_file) quality_default) as Hs.
  unfold report, succeeded, failure, calls_of.
  destruct (convert_try L svg_file (jpg_file_of svg_file) quality_default start)
    as [d [v|e]]; cbn [fst snd] in *.
  - destruct Hs as [-> Hout]. unfold after. rewrite Hout. reflexivity.
  - unfold bind, print, ret, after. cbn [stdout calls]. rewrite Hs.
    rewrite app_nil_r. reflexivity.
Qed.

Lemma for_each_run (svg_files : list string) (acc : nat) (p : Proc) :
  for_each svg_files acc (loop_body L) p
  = ({| stdout := stdout p ++ map (report L) svg_files;
        calls := calls p ++ flat_map (calls_of L) svg_files |},
     Ok (acc + converted L svg_files)).
Proof.
  revert acc p. induction svg_files as [|f fs IH]; intros acc p.
  - cbn. unfold ret. rewrite !app_nil_r, Nat.add_0_r. destruct p. reflexivity.
  - cbn [for_each]. unfold bind at 1. unfold loop_body at 1. unfold bind at 1.
    rewrite convert_svg_to_jpg_run. unfold ret at 1.
    rewrite IH. cbn [stdout calls map flat_map].
    rewrite <- !app_assoc. cbn [app]. f_equal. f_equal.
    unfold converted. cbn [filter].
    destruct (succeeded L f); cbn [List.length]; lia.
Qed.

(** The whole of [main], given the listing. *)
Lemma main_run (names : list string) :
  os_listdir L "." = Ok names ->
  main L start
  = match svg_files_of names with
    | [] =>
        ({| stdout := ["No SVG files found in current directory"];
            calls := [Listdir "."] |}, Ok tt)
    | _ :: _ =>
        let svg_files := svg_files_of names in
        ({| stdout :=
              found_line (List.length svg_files)
              :: map (report L) svg_files
              ++ [tally_line (converted L svg_files) (List.length svg_files)];
            calls := Listdir "." :: flat_map (calls_of L) svg_files |}, Ok tt)
    end.
Proof.
  intros Hls. unfold main. unfold bind at 1, lib at 1. rewrite Hls.
  cbn [stdout calls start app].
  destruct (svg_files_of names) as [|f fs] eqn:Ef; [reflexivity|].
  unfold bind at 1. unfold print at 1. cbn [stdout calls app].
  unfold bind at 1.
  change (for_each (f :: fs) 0 _) with (for_each (f :: fs) 0 (loop_body L)).
  rewrite for_each_run. cbn [stdout calls Nat.add].
  unfold print. cbn [stdout calls]. cbv zeta.
  unfold found_line, tally_line. rewrite <- app_assoc. reflexivity.
Qed.

End ConverterFacts.

(** ** The converter: destination paths *)

Lemma calls_of_save (L : Converter.Lib) (svg_file : string) :
  Converter.failure L svg_file = None ->
  exists im,
    In (Converter.Save im (Converter.jpg_file_of svg_file) "JPEG" 95 true)
       (Converter.calls_of L svg_file).
Proof.
  unfold Converter.failure, Converter.calls_of, Converter.convert_try,
    Converter.bind, Converter.lib, Converter.print, Converter.ret,
    Converter.start, Converter.quality_default.
  cbn [Converter.stdout Converter.calls app].
  destruct (Converter.cairosvg_svg2png L svg_file) as [png|e];
    [|discriminate].
  destruct (Converter.Image_open L png) as [image|e]; [|discriminate].
  destruct (String.eqb (Converter.mode image) "RGBA");
    [|destruct (negb (String.eqb (Converter.mode image) "RGB"));
      [destruct (Converter.Image_convert L image "RGB");
       [|discriminate]|]];
    cbn [Converter.stdout Converter.calls app fst snd];
    (destruct (Converter.Image_save L _ _ "JPEG" 95 true); [|discriminate]);
    intros _; eexists; cbn [Converter.calls fst];
    repeat first [left; reflexivity | right].
Qed.

(** C1, as stated, fails: on [my.svg.backup.svg] the code does not leave
    the second [.svg] in place, which a replacement of the first occurrence
    alone would. *)
Lemma C1_first_occurrence_only_fails :
  Reading.replace_first "my.svg.backup.svg" ".svg" ".jpg" = "my.jpg.backup.svg"
  /\ Converter.jpg_file_of "my.svg.backup.svg" = "my.jpg.backup.jpg"
  /\ Converter.jpg_file_of "my.svg.backup.svg"
     <> Reading.replace_first "my.svg.backup.svg" ".svg" ".jpg".
Proof.
  split; [reflexivity|]. split; [reflexivity|]. discriminate.
Qed.

(** C1, amended: the destination path of a source filename has the target
    extension [.jpg] in place of every occurrence of [.svg] in the filename
    and is the filename everywhere else; a discovered filename, which ends
    in [.svg], gets a destination that ends in [.jpg]; for
    [my.svg.backup.svg] it is [my.jpg.backup.jpg]. *)
Theorem C1_every_occurrence_replaced (svg_file : string) :
  let jpg_file := Converter.jpg_file_of svg_file in
  length jpg_file = length svg_file
  /\ (forall i, Str.startswith (Str.drop i svg_file) ".svg" = true ->
                Str.startswith (Str.drop i jpg_file) ".jpg" = true)
  /\ (forall i, (forall k, k <= i < k + 4 ->
                           Str.startswith (Str.drop k svg_file) ".svg" = false) ->
                get i jpg_file = get i svg_file)
  /\ (Str.endswith svg_file ".svg" = true -> Str.endswith jpg_file ".jpg" = true)
  /\ (forall L, Converter.failure L svg_file = None ->
        Converter.report L svg_file
        = "✓ Converted: " ++ svg_file ++ " -> " ++ jpg_file
        /\ exists im,
             In (Converter.Save im jpg_file "JPEG" 95 true)
                (Converter.calls_of L svg_file))
  /\ Converter.jpg_file_of "my.svg.backup.svg" = "my.jpg.backup.jpg".
Proof.
  cbv zeta. split; [apply jpg_file_of_length|].
  split; [apply jpg_file_of_occurrence|].
  split; [apply jpg_file_of_elsewhere|].
  split; [apply jpg_file_of_endswith|].
  split; [|reflexivity].
  intros L Hok. split; [|apply calls_of_save; exact Hok].
  unfold Converter.report. rewrite Hok. reflexivity.
Qed.

(** The amended C1 at work on a discovered filename with two occurrences. *)
Lemma C1_every_occurrence_replaced_witness :
  Str.endswith (Converter.jpg_file_of "my.svg.backup.svg") ".jpg" = true
  /\ Str.startswith (Str.drop 13 (Converter.jpg_file_of "my.svg.backup.svg")) ".jpg" = true
  /\ get 1 (Converter.jpg_file_of "my.svg.backup.svg") = get 1 "my.svg.backup.svg"
  /\ exists im,
       In (Converter.Save im "logo.jpg" "JPEG" 95 true)
          (Converter.calls_of Scenario.studio "logo.svg").
Proof.
  pose proof (C1_every_occurrence_replaced "my.svg.backup.svg") as H.
  cbv zeta in H. destruct H as (_ & Hocc & Hels & Hend & _).
  split; [apply Hend; reflexivity|].
  split; [apply Hocc; reflexivity|].
  split.
  - apply Hels. intros k Hk.
    destruct k as [|[|k]]; [reflexivity|reflexivity|lia].
  - pose proof (C1_every_occurrence_replaced "logo.svg") as H.
    cbv zeta in H. destruct H as (_ & _ & _ & _ & Hsave & _).
    apply (Hsave Scenario.studio). reflexivity.
Defined.

Section BatchClaims.

Import Converter.

Lemma no_svg_files (names : list string) :
  Forall (fun f => Str.endswith f ".svg" = false) names ->
  svg_files_of names = [].
Proof.
  unfold svg_files_of. induction 1 as [|f fs Hf _ IH]; [reflexivity|].
  cbn [filter]. rewrite Hf. exact IH.
Qed.

Lemma calls_of_head (L : Lib) (svg_file : string) :
  hd_error (calls_of L svg_file) = Some (Svg2png svg_file).
Proof.
  unfold calls_of, convert_try, bind, lib, start. cbn [stdout calls app].
  destruct (cairosvg_svg2png L svg_file) as [png|e]; [|reflexivity].
  destruct (Image_open L png) as [image|e]; [|reflexivity].
  destruct (String.eqb (mode image) "RGBA");
    [|destruct (negb (String.eqb (mode image) "RGB"));
      [destruct (Image_convert L image "RGB"); [|reflexivity]|]];
    cbn [ret stdout calls app];
    destruct (Image_save L _ _ "JPEG" quality_default true); reflexivity.
Qed.





(** C9: when no filename of the listing ends in [.svg], the output is the
    single line [No SVG files found in current directory], the only
    library call is the listing (nothing is rasterized, opened or saved),
    and [main] returns. *)
Theorem C9_no_svg_files (L : Lib) (names : list string) :
  os_listdir L "." = Ok names ->
  Forall (fun f => Str.endswith f ".svg" = false) names ->
  main L start
  = ({| stdout := ["No SVG files found in current directory"];
        calls := [Listdir "."] |}, Ok tt)
  /\ output L = ["No SVG files found in current directory"]
  /\ library_calls L = [Listdir "."].
Proof.
  intros Hls Hno.
  assert (Hrun := main_run L names Hls).
  rewrite (no_svg_files names Hno) in Hrun.
  split; [exact Hrun|].
  unfold output, library_calls, run. rewrite Hrun. split; reflexivity.
Qed.

Lemma C9_no_svg_files_witness :
  output Scenario.no_svg = ["No SVG files found in current directory"]
  /\ library_calls Scenario.no_svg = [Listdir "."].
Proof.
  apply (C9_no_svg_files Scenario.no_svg ["notes.txt"; "logo.svg.bak"; "svg"]).
  - reflexivity.
  - repeat constructor.
Defined.

End BatchClaims.

(** ** The converter: colour normalization *)

Section ColourClaims.

Import Converter.

Variable L : Lib.

Lemma blend_data_nth (mask : list Z) (dst src : list Pixel) (i : nat) :
  nth_error (blend_data L mask dst src) i
  = match nth_error mask i, nth_error dst i, nth_error src i with
    | Some m, Some d, Some s => Some (blend_pixel L m d s)
    | _, _, _ => nth_error dst i
    end.
Proof.
  revert dst src i.
  induction mask as [|m mask IH]; intros dst src i.
  - cbn [blend_data]. destruct i; reflexivity.
  - destruct dst as [|d dst].
    + cbn [blend_data]. destruct i; cbn [nth_error];
        repeat match goal with |- context [match ?x with _ => _ end] =>
                 destruct x end; reflexivity.
    + destruct src as [|s src].
      * cbn [blend_data]. destruct i; cbn [nth_error]; [reflexivity|].
        destruct (nth_error mask i), (nth_error dst i); reflexivity.
      * cbn [blend_data]. destruct i; cbn [nth_error]; [reflexivity|apply IH].
Qed.

Lemma repeat_nth {X} (x : X) (n i : nat) :
  i < n -> nth_error (repeat x n) i = Some x.
Proof.
  revert i. induction n as [|n IH]; intros i Hi; [lia|].
  destruct i; cbn; [reflexivity|]. apply IH. lia.
Qed.

(** Pillow's blend keeps the destination byte under a mask of 0. *)
Lemma pillow_blend_mask_0 (d s : Z) :
  (0 <= d <= 255)%Z -> pillow_blend 0 d s = d.
Proof.
  intros Hd. unfold pillow_blend, DIV255. cbv zeta.
  rewrite Z.mul_0_r, Z.add_0_r, Z.sub_0_r, !Z.shiftr_div_pow2 by lia.
  change (2 ^ 8)%Z with 256%Z.
  Z.div_mod_to_equations. lia.
Qed.

(** Pasting under a mask that is 0 at a coordinate leaves the white canvas
    white there. *)
Lemma paste_transparent (image : Image) (xy : nat * nat) (px : Pixel) :
  (forall d s, (0 <= d <= 255)%Z -> blend L 0 d s = d) ->
  getpixel image xy = Some px ->
  A px = 0%Z ->
  getpixel (paste L (Image_new "RGB" (size image) (255, 255, 255)%Z) image
                  (band3 (split image))) xy
  = Some white.
Proof.
  intros Hblend Hpx Ha. destruct xy as [x y].
  unfold getpixel in *. cbn [paste Image_new size data mode fst snd].
  destruct (size image) as [w h] eqn:Esz. cbn [fst snd] in *.
  destruct ((x <? w)%nat && (y <? h)%nat) eqn:Hin; [|discriminate].
  apply andb_prop in Hin. destruct Hin as [Hx Hy].
  apply Nat.ltb_lt in Hx, Hy.
  rewrite blend_data_nth. unfold band3, split. cbn [snd].
  rewrite nth_error_map, Hpx. cbn [option_map].
  rewrite repeat_nth by nia.
  unfold blend_pixel. cbn [R G B A]. rewrite Ha, !Hblend by lia. reflexivity.
Qed.


End ColourClaims.


(** ** The server: routing and the response header *)

Section HandlerClaims.

Import Server.

Lemma set_path_request (p target : string) :
  set_path p (request target) = request p.
Proof. reflexivity. Qed.

Lemma do_GET_root (FS : string -> list call) (h : Handler) :
  path h = "" \/ path h = "/" ->
  do_GET FS h = super_do_GET FS (set_path "/mpmc_animation.html" h).
Proof. intros [Hp|Hp]; unfold do_GET; rewrite Hp; reflexivity. Qed.

Lemma do_GET_other (FS : string -> list call) (h : Handler) :
  path h <> "" -> path h <> "/" ->
  do_GET FS h = super_do_GET FS h.
Proof.
  intros H1 H2. unfold do_GET.
  apply String.eqb_neq in H1, H2. rewrite H1, H2. reflexivity.
Qed.





Lemma exec_keeps_cors (c : call) (h : Handler) :
  Forall has_cors (wfile h) -> Forall has_cors (wfile (exec c h)).
Proof.
  intros Hw. destruct c; cbn [exec]; try exact Hw.
  - unfold end_headers, base_end_headers, flush_headers, send_header.
    cbn [wfile headers_buffer]. apply Forall_app. split; [exact Hw|].
    constructor; [|constructor].
    cbn [has_cors]. apply in_or_app. left. apply in_or_app. right.
    left. reflexivity.
  - unfold write. cbn [wfile]. apply Forall_app. split; [exact Hw|].
    constructor; [exact I|constructor].
Qed.

Lemma exec_all_keeps_cors (cs : list call) (h : Handler) :
  Forall has_cors (wfile h) -> Forall has_cors (wfile (exec_all cs h)).
Proof.
  revert h. induction cs as [|c cs IH]; intros h Hw; [exact Hw|].
  cbn [exec_all fold_left]. apply IH. apply exec_keeps_cors. exact Hw.
Qed.

Lemma exec_all_heads (cs : list call) (h : Handler) :
  List.length (heads (wfile (exec_all cs h)))
  = List.length (heads (wfile h)) + List.length (filter is_end_headers cs).
Proof.
  revert h. induction cs as [|c cs IH]; intros h; [cbn; lia|].
  cbn [exec_all fold_left]. change (fold_left _ cs ?x) with (exec_all cs x).
  rewrite IH. destruct c; cbn [exec filter is_end_headers]; try reflexivity.
  - unfold end_headers, base_end_headers, flush_headers, send_header.
    cbn [wfile headers_buffer]. unfold heads. rewrite flat_map_app.
    rewrite length_app. cbn. lia.
  - unfold write. cbn [wfile]. unfold heads. rewrite flat_map_app.
    rewrite length_app. cbn. lia.
Qed.


End HandlerClaims.

(** ** The server: command line and start-up *)

Section StartupClaims.

Import Server.

Lemma all_digits_of_uint (d : Decimal.uint) :
  all_digits (NilEmpty.string_of_uint d) = true.
Proof. induction d; cbn [NilEmpty.string_of_uint all_digits]; auto. Qed.

Lemma to_uint_nonnil (n : nat) : Nat.to_uint n <> Decimal.Nil.
Proof.
  rewrite <- (DecimalNat.Unsigned.of_to n) at 1.
  rewrite DecimalNat.Unsigned.to_of. apply DecimalFacts.unorm_nonnil.
Qed.

Lemma int_of_digits_of_nat (n : nat) :
  int_of_digits (Str.of_nat n) = Some (Z.of_nat n).
Proof.
  unfold int_of_digits, Str.of_nat.
  rewrite all_digits_of_uint, NilEmpty.usu. cbn [option_map].
  rewrite DecimalNat.Unsigned.of_to.
  pose proof (to_uint_nonnil n) as Hn.
  destruct (Nat.to_uint n); try reflexivity. congruence.
Qed.

Lemma digits_no_dash (s : string) :
  all_digits s = true -> Str.startswith s "-" = false.
Proof.
  destruct s as [|c s]; [reflexivity|]. cbn [all_digits Str.startswith].
  intros H. apply andb_prop in H. destruct H as [Hc _].
  rewrite andb_true_r. destruct (Ascii.eqb_spec "-" c) as [<-|]; [|reflexivity].
  discriminate Hc.
Qed.

Lemma parse_port (opt : string) (n : nat) (rest : list string) (ns : Args) :
  opt = "--port" \/ opt = "-p" ->
  parse_args (opt :: Str.of_nat n :: rest) ns
  = parse_args rest (set_port (Z.of_nat n) ns).
Proof.
  intros Hopt. cbn [parse_args].
  replace (String.eqb opt "--open") with false
    by (destruct Hopt; subst; reflexivity).
  replace (String.eqb opt "--port" || String.eqb opt "-p") with true
    by (destruct Hopt; subst; reflexivity).
  rewrite digits_no_dash by apply all_digits_of_uint.
  rewrite int_of_digits_of_nat. reflexivity.
Qed.

Lemma parse_host (v : string) (rest : list string) (ns : Args) :
  Str.startswith v "-" = false ->
  parse_args ("--host" :: v :: rest) ns = parse_args rest (set_host v ns).
Proof.
  intros Hv. cbn [parse_args].
  change (String.eqb "--host" "--open") with false.
  change (String.eqb "--host" "--port" || String.eqb "--host" "-p") with false.
  change (String.eqb "--host" "--host") with true.
  cbv iota. rewrite Hv. reflexivity.
Qed.



(** C7: started with the open-browser flag, a launch attempt that fails
    (it raises, or it returns false) is ignored: the process prints what it
    prints without the flag, its trace is the trace without the flag but
    for the launch attempt, it ends as it does without the flag, and once
    the address is bound it enters the serve loop. *)
Theorem C7_browser_failure_ignored
    (E : Env) (args : Args) (argv' : list string) :
  parse_args (argv E) defaults = Parsed args ->
  open args = true ->
  parse_args argv' defaults = Parsed (set_open false args) ->
  (exists e, webbrowser_open E (url_of args) = Raise e)
  \/ webbrowser_open E (url_of args) = Ok false ->
  exists r r',
    main E = Some r
    /\ main (with_argv argv' E) = Some r'
    /\ printed r = printed r'
    /\ filter (fun ev => negb (is_browser ev)) (trace r) = trace r'
    /\ final r = final r'
    /\ browser_attempts r' = []
    /\ (bind_server E (host args) (port args) = Ok tt ->
        browser_attempts r = [url_of args] /\ In ServeForever (trace r)).
Proof.
  intros Hparse Hopen Hparse' Hweb.
  unfold main. rewrite Hparse. cbn [argv with_argv]. rewrite Hparse'.
  eexists. eexists. split; [reflexivity|]. split; [reflexivity|].
  unfold main_with. cbn [host port open set_open os_getcwd bind_server
                         webbrowser_open with_argv].
  change (url_of (set_open false args)) with (url_of args).
  rewrite Hopen.
  assert (Hsame :
    match webbrowser_open E (url_of args) with
    | Ok _ =>
        ([Chdir (os_getcwd E); Bind (host args) (port args)]
         ++ [Print ("Serving " ++ os_getcwd E ++ " at " ++ url_of args
                    ++ " (press Ctrl-C to stop)")]
         ++ [Browser (url_of args)])%list
    | Raise _ =>
        ([Chdir (os_getcwd E); Bind (host args) (port args)]
         ++ [Print ("Serving " ++ os_getcwd E ++ " at " ++ url_of args
                    ++ " (press Ctrl-C to stop)")]
         ++ [Browser (url_of args)])%list
    end
    = [Chdir (os_getcwd E); Bind (host args) (port args);
       Print ("Serving " ++ os_getcwd E ++ " at " ++ url_of args
              ++ " (press Ctrl-C to stop)");
       Browser (url_of args)]).
  { destruct Hweb as [[e ->]| ->]; reflexivity. }
  destruct (bind_server E (host args) (port args)) as [[]|eb].
  - rewrite <- app_assoc. rewrite Hsame.
    unfold serve_loop. cbn [serve_forever with_argv].
    destruct (serve_forever E); cbn; repeat split; auto 10.
  - cbn. repeat split; first [reflexivity | discriminate].
Qed.

Lemma C7_browser_failure_ignored_witness :
  exists r r',
    main Scenario.headless = Some r
    /\ main (with_argv ["--port"; "8080"] Scenario.headless) = Some r'
    /\ printed r = printed r'
    /\ filter (fun ev => negb (is_browser ev)) (trace r) = trace r'
    /\ final r = final r'
    /\ browser_attempts r' = []
    /\ (bind_server Scenario.headless "0.0.0.0" 8080 = Ok tt ->
        browser_attempts r = ["http://127.0.0.1:8080/"]
        /\ In ServeForever (trace r)).
Proof.
  apply (C7_browser_failure_ignored Scenario.headless
           {| port := 8080; host := "0.0.0.0"; open := true |}
           ["--port"; "8080"]);
    try reflexivity.
  left. exists (Exc "could not locate runnable browser"). reflexivity.
Defined.

End StartupClaims.

(** * Further properties of the scripts *)

(** ** Destination names *)

Section NamingFacts.

Lemma jpg_file_of_cases (r : string) :
  r = ""
  \/ (exists r', r = ".svg" ++ r')
  \/ (exists c r', r = String c r' /\ Str.startswith r ".svg" = false).
Proof.
  destruct r as [|c r']; [left; reflexivity|right].
  destruct (Str.startswith (String c r') ".svg") eqn:Hs.
  - left. apply startswith_svg_shape. exact Hs.
  - right. exists c, r'. split; reflexivity.
Qed.

Lemma startswith_cons (a b : ascii) (s p : string) :
  Str.startswith (String b s) (String a p) = Ascii.eqb a b && Str.startswith s p.
Proof. reflexivity. Qed.

Lemma jpg_file_of_starts_g (r : string) :
  Str.startswith (Converter.jpg_file_of r) "g" = Str.startswith r "g".
Proof.
  destruct (jpg_file_of_cases r) as [->|[[r' ->]|(c & r' & -> & Hs)]].
  - reflexivity.
  - rewrite jpg_file_of_hit. reflexivity.
  - rewrite (jpg_file_of_miss _ _ Hs). reflexivity.
Qed.

Lemma jpg_file_of_starts_vg (r : string) :
  Str.startswith (Converter.jpg_file_of r) "vg" = Str.startswith r "vg".
Proof.
  destruct (jpg_file_of_cases r) as [->|[[r' ->]|(c & r' & -> & Hs)]].
  - reflexivity.
  - rewrite jpg_file_of_hit. reflexivity.
  - rewrite (jpg_file_of_miss _ _ Hs). rewrite !startswith_cons.
    rewrite jpg_file_of_starts_g. reflexivity.
Qed.

Lemma jpg_file_of_starts_svg (r : string) :
  Str.startswith (Converter.jpg_file_of r) "svg" = Str.startswith r "svg".
Proof.
  destruct (jpg_file_of_cases r) as [->|[[r' ->]|(c & r' & -> & Hs)]].
  - reflexivity.
  - rewrite jpg_file_of_hit. reflexivity.
  - rewrite (jpg_file_of_miss _ _ Hs). rewrite !startswith_cons.
    rewrite jpg_file_of_starts_vg. reflexivity.
Qed.

(** No occurrence of [.svg] is left in a destination name. *)
Lemma jpg_file_of_clean (f : string) (i : nat) :
  Str.startswith (Str.drop i (Converter.jpg_file_of f)) ".svg" = false.
Proof.
  revert i. induction f as [|r IH|c r Hs IH] using svg_scan_ind; intros i.
  - destruct i; reflexivity.
  - rewrite jpg_file_of_hit.
    destruct i as [|[|[|[|j]]]]; try reflexivity.
    cbn [Str.drop append]. apply IH.
  - rewrite (jpg_file_of_miss _ _ Hs).
    destruct i as [|j]; [|cbn [Str.drop]; apply IH].
    cbn [Str.drop]. rewrite startswith_cons, jpg_file_of_starts_svg.
    rewrite <- startswith_cons. exact Hs.
Qed.

(** A name without an occurrence of [.svg] is its own destination. *)
Lemma jpg_file_of_fixed (s : string) :
  (forall i, Str.startswith (Str.drop i s) ".svg" = false) ->
  Converter.jpg_file_of s = s.
Proof.
  induction s as [|c s IH]; intros H; [reflexivity|].
  rewrite (jpg_file_of_miss _ _ (H 0)). f_equal.
  apply IH. intros i. apply (H (S i)).
Qed.

Lemma append_length (s t : string) : length (s ++ t) = length s + length t.
Proof. induction s as [|c s IH]; cbn [append length]; [reflexivity|now rewrite IH]. Qed.

Lemma drop_append (s t : string) : Str.drop (length s) (s ++ t) = t.
Proof. induction s as [|c s IH]; [reflexivity|exact IH]. Qed.

Lemma take_drop (n : nat) (s : string) : s = substring 0 n s ++ Str.drop n s.
Proof.
  revert s. induction n as [|n IH]; intros [|c s]; cbn [substring Str.drop append];
    try reflexivity.
  f_equal. apply IH.
Qed.

(** [s.endswith(p)] holds exactly of the strings [pre + p]. *)
Lemma endswith_suffix_iff (s p : string) :
  Str.endswith s p = true <-> exists pre, s = pre ++ p.
Proof.
  unfold Str.endswith. rewrite andb_true_iff, Nat.leb_le, String.eqb_eq. split.
  - intros [_ Hd]. exists (substring 0 (length s - length p) s).
    pose proof (take_drop (length s - length p) s) as Hs.
    rewrite Hd in Hs. exact Hs.
  - intros [pre ->]. rewrite append_length. split; [lia|].
    replace (length pre + length p - length p) with (length pre) by lia.
    apply drop_append.
Qed.

(** A destination never ends in [.svg]. *)
Lemma jpg_file_of_not_svg (f : string) :
  Str.endswith (Converter.jpg_file_of f) ".svg" = false.
Proof.
  destruct (Str.endswith (Converter.jpg_file_of f) ".svg") eqn:He; [|reflexivity].
  apply endswith_occurrence in He. destruct He as [_ He].
  rewrite jpg_file_of_clean in He. discriminate.
Qed.

End NamingFacts.

(** X1: the destination name holds no occurrence of [.svg], so naming is
    idempotent, and a name is its own destination exactly when it holds no
    occurrence of [.svg]. *)
Theorem X1_destination_has_no_svg (f : string) :
  (forall i, Str.startswith (Str.drop i (Converter.jpg_file_of f)) ".svg" = false)
  /\ Converter.jpg_file_of (Converter.jpg_file_of f) = Converter.jpg_file_of f
  /\ (Converter.jpg_file_of f = f
      <-> forall i, Str.startswith (Str.drop i f) ".svg" = false).
Proof.
  split; [apply jpg_file_of_clean|].
  split; [apply jpg_file_of_fixed, jpg_file_of_clean|].
  split; [|apply jpg_file_of_fixed].
  intros Heq i. rewrite <- Heq. apply jpg_file_of_clean.
Qed.

(** X2: a discovered file is never its own destination, and a destination
    is never discovered in a later run: for a name ending in [.svg] the
    destination differs from the name, ends in [.jpg] and does not end in
    [.svg]. *)
Theorem X2_destination_is_not_a_source (f : string) :
  Str.endswith f ".svg" = true ->
  Converter.jpg_file_of f <> f
  /\ Str.endswith (Converter.jpg_file_of f) ".jpg" = true
  /\ Str.endswith (Converter.jpg_file_of f) ".svg" = false
  /\ Converter.svg_files_of [Converter.jpg_file_of f] = [].
Proof.
  intros Hend.
  pose proof (jpg_file_of_not_svg f) as Hno.
  split; [|split; [apply jpg_file_of_endswith; exact Hend|split; [exact Hno|]]].
  - intros Heq. rewrite Heq in Hno. congruence.
  - unfold Converter.svg_files_of. cbn [filter]. rewrite Hno. reflexivity.
Qed.

Lemma X2_destination_is_not_a_source_witness :
  Converter.jpg_file_of "my.svg.backup.svg" <> "my.svg.backup.svg"
  /\ Str.endswith (Converter.jpg_file_of "my.svg.backup.svg") ".jpg" = true
  /\ Str.endswith (Converter.jpg_file_of "my.svg.backup.svg") ".svg" = false
  /\ Converter.svg_files_of [Converter.jpg_file_of "my.svg.backup.svg"] = [].
Proof.
  apply (X2_destination_is_not_a_source "my.svg.backup.svg"). reflexivity.
Defined.

(** ** Colliding destinations *)

Section Collisions.

Lemma startswith_append_dot (c : ascii) (r t : string) :
  Str.startswith (String c r) ".svg" = false ->
  Str.startswith (String c (r ++ String "." t)) ".svg" = false.
Proof.
  rewrite !startswith_cons.
  destruct (Ascii.eqb "." c); [|reflexivity]. cbn [andb].
  destruct r as [|r1 [|r2 [|r3 r]]]; cbn [append]; intros H.
  - reflexivity.
  - rewrite startswith_cons. destruct (Ascii.eqb "s" r1); reflexivity.
  - rewrite !startswith_cons.
    destruct (Ascii.eqb "s" r1), (Ascii.eqb "v" r2); reflexivity.
  - exact H.
Qed.

Lemma jpg_file_of_append_dot (s t : string) :
  Converter.jpg_file_of (s ++ String "." t)
  = Converter.jpg_file_of s ++ Converter.jpg_file_of (String "." t).
Proof.
  induction s as [|r IH|c r Hs IH] using svg_scan_ind.
  - reflexivity.
  - change ((".svg" ++ r) ++ String "." t) with (".svg" ++ (r ++ String "." t)).
    rewrite !jpg_file_of_hit, IH. reflexivity.
  - cbn [append].
    rewrite (jpg_file_of_miss _ _ (startswith_append_dot c r t Hs)).
    rewrite (jpg_file_of_miss _ _ Hs), IH. reflexivity.
Qed.

Lemma append_inv_head (s x y : string) : s ++ x = s ++ y -> x = y.
Proof.
  induction s as [|c s IH]; cbn [append]; intros H; [exact H|].
  injection H as H. apply IH. exact H.
Qed.

Lemma append_assoc_str (s t u : string) : (s ++ t) ++ u = s ++ (t ++ u).
Proof. induction s as [|c s IH]; cbn [append]; [reflexivity|now rewrite IH]. Qed.

End Collisions.

(** X3: two discovered files can share a destination: for every stem, the
    distinct names [stem.jpg.svg] and [stem.svg.svg] are both discovered
    and have the same destination, so the later conversion overwrites the
    earlier one. *)
Theorem X3_destinations_can_collide (stem : string) :
  let a := stem ++ ".jpg.svg" in
  let b := stem ++ ".svg.svg" in
  a <> b
  /\ Converter.svg_files_of [a; b] = [a; b]
  /\ Converter.jpg_file_of a = Converter.jpg_file_of b
  /\ Converter.jpg_file_of a = Converter.jpg_file_of stem ++ ".jpg.jpg".
Proof.
  cbv zeta. split; [|split; [|split]].
  - intros H. apply append_inv_head in H. discriminate H.
  - unfold Converter.svg_files_of. cbn [filter].
    assert (Ha : Str.endswith (stem ++ ".jpg.svg") ".svg" = true).
    { apply endswith_suffix_iff. exists (stem ++ ".jpg").
      rewrite append_assoc_str. reflexivity. }
    assert (Hb : Str.endswith (stem ++ ".svg.svg") ".svg" = true).
    { apply endswith_suffix_iff. exists (stem ++ ".svg").
      rewrite append_assoc_str. reflexivity. }
    rewrite Ha, Hb. reflexivity.
  - rewrite !jpg_file_of_append_dot. reflexivity.
  - rewrite jpg_file_of_append_dot. reflexivity.
Qed.

(** ** One conversion *)

Section ConversionFacts.

Import Converter.

Variable L : Lib.

Ltac conversion_cases svg_file :=
  unfold convert_svg_to_jpg, try_except, convert_try, bind, lib, print, ret,
    start;
  cbn [stdout calls app];
  let png := fresh "png" in
  let image := fresh "image" in
  destruct (cairosvg_svg2png L svg_file) as [png|?e] eqn:?Hpng;
    [destruct (Image_open L png) as [image|?e] eqn:?Hopen;
     [destruct (String.eqb (mode image) "RGBA") eqn:?Hrgba;
      [|destruct (String.eqb (mode image) "RGB") eqn:?Hrgb; cbn [negb];
        [|destruct (Image_convert L image "RGB") as [?converted|?e] eqn:?Hconv]]
     |]
    |];
  cbn [stdout calls app];
  try match goal with
      | |- context [Image_save L ?im ?fp "JPEG" ?q true] =>
          destruct (Image_save L im fp "JPEG" q true) as [[]|?e] eqn:?Hsave
      end;
  cbn [stdout calls app fst snd].

(** From the empty process: the result, the single line, the calls. *)
Lemma conversion_outcome (svg_file jpg_file : string) (q : nat) :
  exists (b : bool) (line : string) (cs : list call),
    convert_svg_to_jpg L svg_file jpg_file q start
    = ({| stdout := [line]; calls := Svg2png svg_file :: cs |}, Ok b)
    /\ (b = true ->
        line = success_line svg_file jpg_file
        /\ saved_paths (Svg2png svg_file :: cs) = [jpg_file])
    /\ (b = false -> exists e, line = failure_line svg_file e)
    /\ (saved_paths (Svg2png svg_file :: cs) = []
        \/ saved_paths (Svg2png svg_file :: cs) = [jpg_file])
    /\ rasterized (Svg2png svg_file :: cs) = [svg_file]
    /\ Forall (fun c => match c with
                        | Save _ fp format quality optimize =>
                            fp = jpg_file /\ format = "JPEG"
                            /\ quality = q /\ optimize = true
                        | _ => True
                        end) (Svg2png svg_file :: cs).
Proof.
  conversion_cases svg_file;
    (eexists; eexists; eexists; split; [reflexivity|]);
    (split; [intros Hb; try discriminate Hb; split; reflexivity|]);
    (split; [intros Hb; try discriminate Hb; eexists; reflexivity|]);
    (split; [cbn; auto|]);
    (split; [reflexivity|]);
    repeat constructor.
Qed.

Ltac from_start svg_file jpg_file q p :=
  rewrite (framed_convert_svg_to_jpg L svg_file jpg_file q p);
  unfold after.

Ltac split_in H :=
  repeat (cbn [In] in H;
          match type of H with
          | _ \/ _ => destruct H as [H|H]
          | False => contradiction
          | _ => idtac
          end);
  try discriminate H.




(** X7: every image handed to [save] has mode RGB, provided the library
    conversion returns an image of the mode it was asked for. *)
Theorem X7_saved_image_is_RGB (svg_file jpg_file : string) (q : nat) :
  (forall im converted,
     Image_convert L im "RGB" = Ok converted -> mode converted = "RGB") ->
  forall im fp format quality optimize,
    In (Save im fp format quality optimize)
       (calls (fst (convert_svg_to_jpg L svg_file jpg_file q start))) ->
    mode im = "RGB".
Proof.
  intros Hcontract im0 fp fmt q0 o.
  conversion_cases svg_file; intros Hin; split_in Hin;
    injection Hin as <- _ _ _ _.
  all: try reflexivity.
  all: try (apply String.eqb_eq; assumption).
  all: eapply Hcontract; eassumption.
Qed.

End ConversionFacts.




Lemma X7_saved_image_is_RGB_witness :
  Converter.mode Scenario.gray_as_rgb = "RGB".
Proof.
  apply (X7_saved_image_is_RGB Scenario.studio "gray.svg" "gray.jpg" 95)
    with (fp := "gray.jpg") (format := "JPEG") (quality := 95) (optimize := true).
  - intros im converted. unfold Converter.Image_convert, Scenario.studio.
    destruct (String.eqb (Converter.mode im) "L"); intros H;
      [injection H as <-; reflexivity|discriminate H].
  - right. right. right. left. reflexivity.
Defined.

(** ** The batch as a whole *)

Section BatchFacts.

Import Converter.

Variable L : Lib.

Lemma calls_of_run (f : string) :
  calls (fst (convert_svg_to_jpg L f (jpg_file_of f) quality_default start))
  = calls_of L f
  /\ snd (convert_svg_to_jpg L f (jpg_file_of f) quality_default start)
     = Ok (succeeded L f).
Proof. rewrite convert_svg_to_jpg_run. split; reflexivity. Qed.

Lemma calls_of_shape (f : string) :
  rasterized (calls_of L f) = [f]
  /\ (saved_paths (calls_of L f) = []
      \/ saved_paths (calls_of L f) = [jpg_file_of f])
  /\ (succeeded L f = true -> saved_paths (calls_of L f) = [jpg_file_of f])
  /\ Forall (fun c => match c with
                      | Save _ fp format quality optimize =>
                          fp = jpg_file_of f /\ format = "JPEG"
                          /\ quality = 95 /\ optimize = true
                      | _ => True
                      end) (calls_of L f).
Proof.
  destruct (calls_of_run f) as [Hc Hs].
  destruct (conversion_outcome L f (jpg_file_of f) quality_default)
    as (b & line & cs & Hrun & Htrue & _ & Hsaved & Hrast & Hform).
  rewrite Hrun in Hc, Hs. cbn [fst snd calls] in Hc, Hs.
  injection Hs as Hs. rewrite <- Hc, <- Hs.
  split; [exact Hrast|]. split; [exact Hsaved|].
  split; [intros Hb; apply Htrue; exact Hb|exact Hform].
Qed.

Lemma library_calls_run (names : list string) :
  os_listdir L "." = Ok names ->
  library_calls L = Listdir "." :: flat_map (calls_of L) (svg_files_of names).
Proof.
  intros Hls. unfold library_calls, run. rewrite (main_run L names Hls).
  destruct (svg_files_of names); reflexivity.
Qed.

Lemma output_run (names : list string) :
  os_listdir L "." = Ok names ->
  svg_files_of names <> [] ->
  output L
  = found_line (List.length (svg_files_of names))
    :: map (report L) (svg_files_of names)
    ++ [tally_line (converted L (svg_files_of names))
                   (List.length (svg_files_of names))].
Proof.
  intros Hls Hne. unfold output, run. rewrite (main_run L names Hls).
  destruct (svg_files_of names); [congruence|reflexivity].
Qed.

Lemma rasterized_app (cs ds : list call) :
  rasterized (cs ++ ds) = (rasterized cs ++ rasterized ds)%list.
Proof. apply flat_map_app. Qed.

Lemma saved_paths_app (cs ds : list call) :
  saved_paths (cs ++ ds) = (saved_paths cs ++ saved_paths ds)%list.
Proof. apply flat_map_app. Qed.

Lemma rasterized_batch (fs : list string) :
  rasterized (flat_map (calls_of L) fs) = fs.
Proof.
  induction fs as [|f fs IH]; [reflexivity|].
  cbn [flat_map]. rewrite rasterized_app, IH.
  rewrite (proj1 (calls_of_shape f)). reflexivity.
Qed.


Lemma saves_batch (fs : list string) :
  Forall (fun c => match c with
                   | Save _ fp format quality optimize =>
                       format = "JPEG" /\ quality = 95 /\ optimize = true
                       /\ exists f, In f fs /\ fp = jpg_file_of f
                   | _ => True
                   end) (flat_map (calls_of L) fs).
Proof.
  induction fs as [|f fs IH]; [constructor|].
  cbn [flat_map]. apply Forall_app. split.
  - destruct (calls_of_shape f) as (_ & _ & _ & Hform).
    eapply Forall_impl; [|exact Hform].
    intros [ | | | |im fp fmt q o]; auto.
    intros (-> & -> & -> & ->). repeat split. exists f. split; [left|]; reflexivity.
  - eapply Forall_impl; [|exact IH].
    intros [ | | | |im fp fmt q o]; auto.
    intros (-> & -> & -> & g & Hg & ->). repeat split. exists g.
    split; [right; exact Hg|reflexivity].
Qed.

Lemma saved_paths_batch_length (fs : list string) :
  converted L fs <= List.length (saved_paths (flat_map (calls_of L) fs))
  /\ List.length (saved_paths (flat_map (calls_of L) fs)) <= List.length fs.
Proof.
  unfold converted. induction fs as [|f fs [IH1 IH2]]; [split; reflexivity|].
  cbn [flat_map filter]. rewrite saved_paths_app, length_app.
  destruct (calls_of_shape f) as (_ & Hsaved & Htrue & _).
  destruct (succeeded L f).
  - rewrite (Htrue eq_refl). cbn [List.length]. lia.
  - destruct Hsaved as [-> | ->]; cbn [List.length]; lia.
Qed.

(** X9: every save of a run is a JPEG save with quality 95 and
    optimization, to the destination of a discovered file; no discovered
    file is ever a save target; and there are at least as many saves as
    successes and at most as many as discovered files. *)
Theorem X9_saves_of_a_run (names : list string) :
  os_listdir L "." = Ok names ->
  Forall (fun c => match c with
                   | Save _ fp format quality optimize =>
                       format = "JPEG" /\ quality = 95 /\ optimize = true
                       /\ (exists f, In f (svg_files_of names)
                                     /\ fp = jpg_file_of f)
                       /\ ~ In fp (svg_files_of names)
                   | _ => True
                   end) (library_calls L)
  /\ converted L (svg_files_of names)
     <= List.length (saved_paths (library_calls L))
     <= List.length (svg_files_of names).
Proof.
  intros Hls. rewrite (library_calls_run names Hls). split.
  - constructor; [exact I|].
    eapply Forall_impl; [|apply saves_batch].
    intros [ | | | |im fp fmt q o]; auto.
    intros (-> & -> & -> & f & Hf & ->). repeat split.
    + exists f. split; [exact Hf|reflexivity].
    + intros Hin. unfold svg_files_of in Hf, Hin.
      apply filter_In in Hin. destruct Hin as [_ Hin].
      rewrite jpg_file_of_not_svg in Hin. discriminate Hin.
  - cbn [saved_paths flat_map app]. apply saved_paths_batch_length.
Qed.

Lemma filter_all {X} (keep : X -> bool) (l : list X) :
  List.length (filter keep l) = List.length l
  <-> forall x, In x l -> keep x = true.
Proof.
  induction l as [|x l IH]; cbn [filter List.length In]; [tauto|].
  pose proof (filter_length_le keep l) as Hle.
  destruct (keep x) eqn:Hk; cbn [List.length].
  - split.
    + intros H y [<-|Hy]; [exact Hk|]. apply IH; [lia|exact Hy].
    + intros H. f_equal. apply IH. intros y Hy. apply H. right. exact Hy.
  - split; [lia|]. intros H. specialize (H x (or_introl eq_refl)). congruence.
Qed.


End BatchFacts.


Lemma X9_saves_of_a_run_witness :
  Converter.converted Scenario.studio ["logo.svg"; "broken.svg"]
  <= List.length (Converter.saved_paths (Converter.library_calls Scenario.studio))
  <= 2.
Proof.
  exact (proj2 (X9_saves_of_a_run Scenario.studio
                  ["logo.svg"; "notes.txt"; "broken.svg"] eq_refl)).
Defined.


(** ** Opaque pixels *)

Section OpaqueFacts.

Import Converter.

Variable L : Lib.

(** Pillow's blend takes the source byte under a mask of 255. *)
Lemma pillow_blend_mask_255 (d s : Z) :
  (0 <= s <= 255)%Z -> pillow_blend 255 d s = s.
Proof.
  intros Hs. unfold pillow_blend, DIV255. cbv zeta.
  replace (d * (255 - 255))%Z with 0%Z by lia.
  rewrite Z.add_0_l, !Z.shiftr_div_pow2 by lia.
  change (2 ^ 8)%Z with 256%Z.
  Z.div_mod_to_equations. lia.
Qed.

(** X11: flattening keeps the colour of an opaque pixel.  The paste
    taking the source byte where the mask is 255, a pixel of an RGBA image
    with alpha 255 and colour bytes in range has the same colour at its
    coordinate in the flattened image, and a coordinate outside the image
    has no pixel there either. *)
Theorem X11_opaque_pixel_kept (image : Image) (xy : nat * nat) (px : Pixel) :
  (forall d s, (0 <= s <= 255)%Z -> blend L 255 d s = s) ->
  getpixel image xy = Some px ->
  A px = 255%Z ->
  (0 <= R px <= 255)%Z -> (0 <= G px <= 255)%Z -> (0 <= B px <= 255)%Z ->
  let flat := paste L (Image_new "RGB" (size image) (255, 255, 255)%Z) image
                    (band3 (split image)) in
  getpixel flat xy = Some {| R := R px; G := G px; B := B px; A := 255 |}
  /\ option_map rgb (getpixel flat xy) = Some (rgb px)
  /\ (forall xy', getpixel image xy' = None ->
                  List.length (data image) = fst (size image) * snd (size image) ->
                  getpixel flat xy' = None).
Proof.
  intros Hblend Hpx Ha HR HG HB. cbv zeta.
  assert (Hflat :
    getpixel (paste L (Image_new "RGB" (size image) (255, 255, 255)%Z) image
                    (band3 (split image))) xy
    = Some {| R := R px; G := G px; B := B px; A := 255 |}).
  { destruct xy as [x y]. unfold getpixel in *.
    cbn [paste Image_new size data mode fst snd].
    destruct (size image) as [w h] eqn:Esz. cbn [fst snd] in *.
    destruct ((x <? w)%nat && (y <? h)%nat) eqn:Hin; [|discriminate].
    apply andb_prop in Hin. destruct Hin as [Hx Hy].
    apply Nat.ltb_lt in Hx, Hy.
    rewrite blend_data_nth. unfold band3, split. cbn [snd].
    rewrite nth_error_map, Hpx. cbn [option_map].
    rewrite repeat_nth by nia.
    unfold blend_pixel. cbn [R G B A]. rewrite Ha, !Hblend by lia.
    reflexivity. }
  split; [exact Hflat|]. split; [rewrite Hflat; reflexivity|].
  intros [x y] Hnone Hlen. unfold getpixel in *.
  cbn [paste Image_new size data mode fst snd].
  destruct (size image) as [w h] eqn:Esz. cbn [fst snd] in *.
  destruct ((x <? w)%nat && (y <? h)%nat) eqn:Hin; [|reflexivity].
  apply andb_prop in Hin. destruct Hin as [Hx Hy].
  apply Nat.ltb_lt in Hx, Hy.
  apply nth_error_None in Hnone. nia.
Qed.

End OpaqueFacts.

Lemma X11_opaque_pixel_kept_witness :
  Converter.getpixel
    (Converter.paste Scenario.studio
       (Converter.Image_new "RGB" (2, 2) (255, 255, 255)%Z)
       Scenario.icon
       (Converter.band3 (Converter.split Scenario.icon))) (0, 0)
  = Some {| Converter.R := 200; Converter.G := 30; Converter.B := 30;
            Converter.A := 255 |}.
Proof.
  apply (X11_opaque_pixel_kept Scenario.studio Scenario.icon (0, 0)
           {| Converter.R := 200; Converter.G := 30; Converter.B := 30;
              Converter.A := 255 |}
           pillow_blend_mask_255);
    first [reflexivity | cbn; lia].
Defined.

(** ** The imports and the installer *)

Section ImportFacts.

Import Converter.

Variable L : Lib.

Lemma framed_for_each {X T} (body : T -> X -> M T) (xs : list X) (acc : T) :
  (forall a x, framed (body a x)) -> framed (for_each xs acc body).
Proof.
  intros Hbody. revert acc. induction xs as [|x xs IH]; intros acc.
  - apply framed_ret.
  - cbn [for_each]. apply framed_bind; [apply Hbody|exact IH].
Qed.

Lemma framed_main : framed (main L).
Proof.
  unfold main. apply framed_bind; [apply framed_lib|]. intros names.
  destruct (svg_files_of names) as [|f fs]; [apply framed_print|].
  apply framed_bind; [apply framed_print|]. intros _.
  apply framed_bind; [|intros n; apply framed_print].
  apply framed_for_each. intros a x.
  apply framed_bind; [apply framed_convert_svg_to_jpg|].
  intros ok. apply framed_ret.
Qed.

(** X12: when the first import raises [ImportError] and the import after
    the installer succeeds, the script prints [Installing required
    packages...], runs the installer command once, and then behaves as the
    script does with the packages present: same further output, same
    library calls, same exit status. *)
Theorem X12_install_then_run (S : Site) :
  first_import S = RaisesImportError ->
  second_import S = Imported ->
  printed (script S L) = "Installing required packages..." :: output L
  /\ shell (script S L) = ["pip3 install --user cairosvg pillow"]
  /\ lib_calls (script S L) = library_calls L
  /\ status (script S L) = exit_status L.
Proof.
  intros H1 H2. unfold script, output, library_calls, exit_status, run.
  rewrite H1, H2, (framed_main _).
  destruct (main L start) as [p [v|e]]; cbn [fst snd printed shell lib_calls
    status after stdout calls app]; repeat split; reflexivity.
Qed.

(** X13: the installer is run at most once, and exactly when the first
    import raises [ImportError]; when the imports fail for good (another
    exception at first, or no success after the installer) the script
    exits with status 1 without listing the directory or touching a file;
    nothing is printed before [main] when the first import succeeds. *)
Theorem X13_imports_gate_the_run (S : Site) :
  (shell (script S L) = ["pip3 install --user cairosvg pillow"]
   <-> first_import S = RaisesImportError)
  /\ (shell (script S L) = [] <-> first_import S <> RaisesImportError)
  /\ (first_import S = RaisesOther
      \/ (first_import S = RaisesImportError /\ second_import S <> Imported) ->
      status (script S L) = 1%Z /\ lib_calls (script S L) = []
      /\ (forall line, In line (printed (script S L)) ->
                       line = "Installing required packages..."))
  /\ (first_import S = Imported ->
      printed (script S L) = output L
      /\ lib_calls (script S L) = library_calls L
      /\ status (script S L) = exit_status L).
Proof.
  unfold script, output, library_calls, exit_status, run.
  destruct (first_import S) eqn:H1; [|destruct (second_import S) eqn:H2|];
    try (destruct (main L _) as [p [v|e]]);
    cbn [fst snd printed shell lib_calls status stdout];
    (split; [|split; [|split]]);
    try solve [ intuition (first [discriminate | congruence]) ].
  all: intros _; split; [reflexivity|]; split; [reflexivity|].
  all: intros line Hin; cbn [In] in Hin; intuition (subst; reflexivity).
Qed.

End ImportFacts.

Lemma X12_install_then_run_witness :
  Converter.printed (Converter.script Scenario.fresh_machine Scenario.studio)
  = "Installing required packages..." :: Converter.output Scenario.studio
  /\ Converter.status (Converter.script Scenario.fresh_machine Scenario.studio)
     = 0%Z.
Proof.
  destruct (X12_install_then_run Scenario.studio Scenario.fresh_machine
              eq_refl eq_refl) as (Hp & _ & _ & Hs).
  split; [exact Hp|]. rewrite Hs. reflexivity.
Defined.

Lemma X13_imports_gate_the_run_witness :
  Converter.status (Converter.script Scenario.offline Scenario.studio) = 1%Z
  /\ Converter.lib_calls (Converter.script Scenario.offline Scenario.studio) = [].
Proof.
  destruct (X13_imports_gate_the_run Scenario.studio Scenario.offline)
    as (_ & _ & Hfail & _).
  destruct Hfail as (Hs & Hc & _).
  - right. split; [reflexivity|discriminate].
  - split; [exact Hs|exact Hc].
Defined.

(** ** The handler, further *)

Section HandlerFacts.

Import Server.

Lemma exec_path (c : call) (h : Handler) : path (exec c h) = path h.
Proof. destruct c; reflexivity. Qed.

Lemma exec_all_path (cs : list call) (h : Handler) :
  path (exec_all cs h) = path h.
Proof.
  revert h. induction cs as [|c cs IH]; intros h; [reflexivity|].
  cbn [exec_all fold_left]. change (fold_left _ cs ?x) with (exec_all cs x).
  rewrite IH. apply exec_path.
Qed.

Lemma set_path_same (h : Handler) : set_path (path h) h = h.
Proof. destruct h. reflexivity. Qed.

(** X14: the file-serving logic of a GET is never asked for the empty path
    or for [/]: it is asked for one path, which is neither, and that path
    is the handler's path when [do_GET] returns. *)
Theorem X14_root_never_reaches_file_serving
    (FS : string -> list call) (h : Handler) :
  exists p,
    do_GET FS h = exec_all (FS p) (set_path p h)
    /\ path (do_GET FS h) = p
    /\ p <> "" /\ p <> "/"
    /\ (p = path h \/ p = "/mpmc_animation.html").
Proof.
  destruct (String.eqb_spec (path h) "") as [E1|N1];
    [|destruct (String.eqb_spec (path h) "/") as [E2|N2]].
  - exists "/mpmc_animation.html".
    rewrite (do_GET_root FS h (or_introl E1)). unfold super_do_GET.
    rewrite exec_all_path. cbn [path set_path].
    repeat split; try discriminate. right. reflexivity.
  - exists "/mpmc_animation.html".
    rewrite (do_GET_root FS h (or_intror E2)). unfold super_do_GET.
    rewrite exec_all_path. cbn [path set_path].
    repeat split; try discriminate. right. reflexivity.
  - exists (path h). rewrite (do_GET_other FS h N1 N2). unfold super_do_GET.
    rewrite exec_all_path, set_path_same.
    repeat split; try assumption. left. reflexivity.
Qed.

Lemma end_headers_block (h : Handler) :
  wfile (end_headers h)
  = (wfile h ++ [Head (headers_buffer h ++ [cors_line; CRLF])])%list
  /\ headers_buffer (end_headers h) = [].
Proof.
  unfold end_headers, base_end_headers, flush_headers, send_header.
  cbn [wfile headers_buffer path]. rewrite <- app_assoc. split; reflexivity.
Qed.

Lemma exec_all_cons (c : call) (cs : list call) (h : Handler) :
  exec_all (c :: cs) h = exec_all cs (exec c h).
Proof. reflexivity. Qed.

Lemma exec_all_ends_with_cors (cs : list call) (h : Handler) :
  Forall ends_with_cors (wfile h) ->
  Forall ends_with_cors (wfile (exec_all cs h)).
Proof.
  revert h. induction cs as [|c cs IH]; intros h Hw; [exact Hw|].
  rewrite exec_all_cons. apply IH. destruct c; cbn [exec]; try exact Hw.
  - rewrite (proj1 (end_headers_block h)). apply Forall_app.
    split; [exact Hw|]. constructor; [|constructor].
    exists (headers_buffer h). reflexivity.
  - unfold write. cbn [wfile]. apply Forall_app. split; [exact Hw|].
    constructor; [exact I|constructor].
Qed.


Lemma bodies_app (w v : list chunk) : bodies (w ++ v) = (bodies w ++ bodies v)%list.
Proof. apply flat_map_app. Qed.

Lemma exec_all_bodies (cs : list call) (h : Handler) :
  bodies (wfile (exec_all cs h)) = (bodies (wfile h) ++ writes cs)%list.
Proof.
  revert h. induction cs as [|c cs IH]; intros h.
  - cbn. rewrite app_nil_r. reflexivity.
  - rewrite exec_all_cons, IH. destruct c; cbn [exec writes flat_map app];
      try reflexivity.
    + rewrite (proj1 (end_headers_block h)), bodies_app. cbn [bodies flat_map app].
      rewrite app_nil_r. reflexivity.
    + unfold write. cbn [wfile]. rewrite bodies_app. cbn [bodies flat_map app].
      rewrite <- app_assoc. reflexivity.
Qed.

(** X16: the handler changes no body.  The bodies of a reply are what the
    file-serving logic writes, in order: for [/] and the empty path what
    it writes for [/mpmc_animation.html], for another path what it writes
    for that path. *)
Theorem X16_bodies_are_the_library_s (FS : string -> list call) :
  (forall cs h, bodies (wfile (exec_all cs h))
                = (bodies (wfile h) ++ writes cs)%list)
  /\ bodies (reply FS "/") = writes (FS "/mpmc_animation.html")
  /\ bodies (reply FS "") = writes (FS "/mpmc_animation.html")
  /\ (forall target, target <> "" -> target <> "/" ->
                     bodies (reply FS target) = writes (FS target)).
Proof.
  split; [apply exec_all_bodies|].
  split; [unfold reply, do_GET, super_do_GET; cbn [path request String.eqb orb];
          apply exec_all_bodies|].
  split; [unfold reply, do_GET, super_do_GET; cbn [path request String.eqb orb];
          apply exec_all_bodies|].
  intros target H1 H2. unfold reply.
  rewrite (do_GET_other FS (request target)) by assumption.
  unfold super_do_GET. apply exec_all_bodies.
Qed.

End HandlerFacts.

Lemma X16_bodies_are_the_library_s_witness :
  Server.bodies (Server.reply Server.animation_only "/index.html")
  = ["Error response"].
Proof.
  rewrite (proj2 (proj2 (proj2 (X16_bodies_are_the_library_s
                                  Server.animation_only))) "/index.html");
    [reflexivity|discriminate|discriminate].
Defined.

Section HeaderCountFacts.

Import Server.

Lemma status_line_not_cors (code : Z) (message : string) :
  "HTTP/1.0 " ++ Str.of_Z code ++ " " ++ message ++ CRLF <> cors_line.
Proof. unfold cors_line. cbn [append]. discriminate. Qed.

Lemma CRLF_not_cors : CRLF <> cors_line.
Proof. unfold cors_line, CRLF. cbn [append]. discriminate. Qed.

Lemma count_occ_single_other (line : string) :
  line <> cors_line -> count_occ string_dec [line] cors_line = 0.
Proof.
  intros Hne. cbn [count_occ].
  destruct (string_dec line cors_line) as [E|_]; [contradiction|reflexivity].
Qed.

Lemma exec_all_cors_once (cs : list call) (h : Handler) :
  ~ In cors_line (sent_headers cs) ->
  count_occ string_dec (headers_buffer h) cors_line = 0 ->
  Forall has_cors_once (wfile h) ->
  Forall has_cors_once (wfile (exec_all cs h)).
Proof.
  revert h. induction cs as [|c cs IH]; intros h Hsent Hbuf Hw; [exact Hw|].
  rewrite exec_all_cons. destruct c as [code message|keyword value| |content];
    cbn [sent_headers flat_map app] in Hsent; cbn [exec].
  - apply IH; [exact Hsent| |exact Hw].
    unfold send_response_only. cbn [headers_buffer].
    rewrite count_occ_app, Hbuf.
    apply count_occ_single_other, status_line_not_cors.
  - apply IH; [intros Hin; apply Hsent; right; exact Hin| |exact Hw].
    unfold send_header. cbn [headers_buffer].
    rewrite count_occ_app, Hbuf. apply count_occ_single_other.
    intros E. apply Hsent. left. exact E.
  - apply IH;
      [exact Hsent|rewrite (proj2 (end_headers_block h)); reflexivity|].
    rewrite (proj1 (end_headers_block h)). apply Forall_app.
    split; [exact Hw|]. constructor; [|constructor].
    cbn [has_cors_once]. rewrite count_occ_app, Hbuf. cbn [count_occ].
    destruct (string_dec cors_line cors_line) as [_|N]; [|contradiction].
    destruct (string_dec CRLF cors_line) as [E|_]; [|reflexivity].
    elim (CRLF_not_cors E).
  - apply IH; [exact Hsent|exact Hbuf|].
    unfold write. cbn [wfile]. apply Forall_app. split; [exact Hw|].
    constructor; [exact I|constructor].
Qed.

(** X17: unless the library sends the line [Access-Control-Allow-Origin:
    *] itself, every header block the handler writes carries it exactly
    once. *)
Theorem X17_cors_header_exactly_once (cs : list call) (target : string) :
  ~ In cors_line (sent_headers cs) ->
  Forall has_cors_once (wfile (exec_all cs (request target))).
Proof.
  intros Hsent. apply exec_all_cors_once; [exact Hsent|reflexivity|constructor].
Qed.

(** X18: the rewrite is a matter of GET alone.  A HEAD request reaches the
    library with the path of the request, [/] and the empty path included,
    and its header blocks carry the added header; so a HEAD for [/] need
    not be answered as a HEAD for [/mpmc_animation.html], while a GET for
    [/] always is. *)
Theorem X18_head_requests_are_not_rewritten :
  (forall (FSH : string -> list call) (target : string),
     do_HEAD FSH (request target) = exec_all (FSH target) (request target)
     /\ path (do_HEAD FSH (request target)) = target
     /\ Forall has_cors (wfile (do_HEAD FSH (request target))))
  /\ wfile (do_HEAD head_echo (request "/"))
     <> wfile (do_HEAD head_echo (request "/mpmc_animation.html"))
  /\ wfile (do_GET head_echo (request "/"))
     = wfile (do_GET head_echo (request "/mpmc_animation.html")).
Proof.
  split; [|split; [discriminate|reflexivity]].
  intros FSH target. unfold do_HEAD. cbn [path request].
  split; [reflexivity|]. split; [apply exec_all_path|].
  apply exec_all_keeps_cors. constructor.
Qed.

End HeaderCountFacts.

Lemma X17_cors_header_exactly_once_witness :
  Forall Server.has_cors_once (Server.reply Server.animation_only "/nowhere").
Proof.
  apply (X17_cors_header_exactly_once (Server.animation_only "/nowhere") "/nowhere").
  cbn. intros [H|[]]. discriminate H.
Defined.

(** ** The server process, further *)

Section ProcessFacts.

Import Server.

Lemma value_is_no_option (v opt : string) :
  Str.startswith v "-" = false -> Str.startswith opt "-" = true -> v <> opt.
Proof. intros Hv Ho E. subst. congruence. Qed.

Lemma parse_args_fields (n : nat) :
  forall (av : list string) (ns a : Args),
    List.length av <= n ->
    parse_args av ns = Parsed a ->
    (open a = true <-> open ns = true \/ In "--open" av)
    /\ (~ In "--port" av -> ~ In "-p" av -> port a = port ns)
    /\ (~ In "--host" av -> host a = host ns).
Proof.
  induction n as [|n IH]; intros av ns a Hlen Hparse.
  - destruct av; [|cbn in Hlen; lia]. cbn in Hparse. injection Hparse as <-.
    cbn [In]. tauto.
  - destruct av as [|tok rest].
    { cbn in Hparse. injection Hparse as <-. cbn [In]. tauto. }
    cbn [List.length] in Hlen. cbn [parse_args] in Hparse.
    destruct (String.eqb_spec tok "--open") as [->|Nopen].
    { destruct (IH rest (set_open true ns) a ltac:(lia) Hparse) as (Ho & Hp & Hh).
      cbn [open port host set_open In] in *.
      split; [|split].
      - split; [intros _; right; left; reflexivity|].
        intros _. apply Ho. left. reflexivity.
      - intros N1 N2. apply Hp; tauto.
      - intros N1. apply Hh; tauto. }
    destruct (String.eqb tok "--port" || String.eqb tok "-p") eqn:Hport.
    { destruct rest as [|v rest']; [discriminate Hparse|].
      destruct (Str.startswith v "-") eqn:Hv; [discriminate Hparse|].
      destruct (int_of_digits v) as [z|]; [|discriminate Hparse].
      cbn [List.length] in Hlen.
      destruct (IH rest' (set_port z ns) a ltac:(lia) Hparse) as (Ho & Hp & Hh).
      cbn [open port host set_port In] in *.
      apply orb_prop in Hport.
      assert (Htok : tok = "--port" \/ tok = "-p").
      { destruct Hport as [H|H]; apply String.eqb_eq in H; auto. }
      pose proof (value_is_no_option v "--open" Hv eq_refl) as V1.
      pose proof (value_is_no_option v "--host" Hv eq_refl) as V2.
      split; [|split].
      - rewrite Ho. split; [tauto|].
        intros [H|[H|[H|H]]];
          first [tauto | congruence | symmetry in H; contradiction].
      - intros N1 N2. exfalso. destruct Htok as [->| ->]; tauto.
      - intros N1. apply Hh. intros H. apply N1. right. right. exact H. }
    destruct (String.eqb_spec tok "--host") as [->|Nhost]; [|discriminate Hparse].
    destruct rest as [|v rest']; [discriminate Hparse|].
    destruct (Str.startswith v "-") eqn:Hv; [discriminate Hparse|].
    cbn [List.length] in Hlen.
    destruct (IH rest' (set_host v ns) a ltac:(lia) Hparse) as (Ho & Hp & Hh).
    cbn [open port host set_host In] in *.
    pose proof (value_is_no_option v "--open" Hv eq_refl) as V1.
    pose proof (value_is_no_option v "--port" Hv eq_refl) as V2.
    pose proof (value_is_no_option v "-p" Hv eq_refl) as V3.
    split; [|split].
    + rewrite Ho. split; [tauto|].
      intros [H|[H|[H|H]]];
        first [tauto | discriminate H | symmetry in H; contradiction].
    + intros N1 N2. apply Hp; intros H; [apply N1|apply N2]; right; right; exact H.
    + intros N1. exfalso. apply N1. left. reflexivity.
Qed.

(** X19: on a command line the parser accepts, the browser flag is set
    exactly when [--open] is among the arguments, and an option that is
    not among them keeps its default: the port 8000 without [--port] and
    [-p], the host [0.0.0.0] without [--host]. *)
Theorem X19_options_not_given_keep_defaults (av : list string) (a : Args) :
  parse_args av defaults = Parsed a ->
  (open a = true <-> In "--open" av)
  /\ (~ In "--port" av -> ~ In "-p" av -> port a = 8000%Z)
  /\ (~ In "--host" av -> host a = "0.0.0.0").
Proof.
  intros Hparse.
  destruct (parse_args_fields (List.length av) av defaults a (le_n _) Hparse)
    as (Ho & Hp & Hh).
  cbn [open port host defaults] in *.
  split; [|split; assumption].
  rewrite Ho. split; [intros [H|H]; [discriminate H|exact H]|auto].
Qed.

(** X20: once the address is bound, the process prints one line naming
    the directory and the URL [http://127.0.0.1:PORT/], on the loopback
    address whatever the host it bound; it attempts one browser launch, at
    that URL, exactly when [--open] is among the arguments, and none
    otherwise; then it enters the serve loop. *)
Theorem X20_start_up (E : Env) (args : Args) :
  parse_args (argv E) defaults = Parsed args ->
  bind_server E (host args) (port args) = Ok tt ->
  exists r,
    main E = Some r
    /\ bound r = [(host args, port args)]
    /\ hd_error (printed r)
       = Some ("Serving " ++ os_getcwd E ++ " at " ++ url_of args
               ++ " (press Ctrl-C to stop)")
    /\ url_of args = "http://127.0.0.1:" ++ Str.of_Z (port args) ++ "/"
    /\ (In "--open" (argv E) -> browser_attempts r = [url_of args])
    /\ (~ In "--open" (argv E) -> browser_attempts r = [])
    /\ In ServeForever (trace r).
Proof.
  intros Hparse Hbind.
  destruct (parse_args_fields _ _ defaults args (le_n _) Hparse) as (Ho & _ & _).
  cbn [open defaults] in Ho.
  unfold main. rewrite Hparse. eexists. split; [reflexivity|].
  unfold main_with. rewrite Hbind.
  assert (Hopen : open args = true <-> In "--open" (argv E)).
  { rewrite Ho. split; [intros [H|H]; [discriminate H|exact H]|auto]. }
  destruct (open args) eqn:Eo.
  - assert (Hin : In "--open" (argv E)) by (apply Hopen; reflexivity).
    destruct (webbrowser_open E (url_of args)); unfold serve_loop;
      destruct (serve_forever E); cbn; repeat split; auto 10; tauto.
  - assert (Hin : ~ In "--open" (argv E))
      by (intros H; apply Hopen in H; discriminate H).
    unfold serve_loop; destruct (serve_forever E); cbn; repeat split;
      auto 10; tauto.
Qed.

(** X21: when the address cannot be bound, the process exits with status
    1 having printed nothing, attempted no browser launch, [--open] or
    not, and never entered the serve loop. *)
Theorem X21_bind_failure (E : Env) (args : Args) (e : Exception) :
  parse_args (argv E) defaults = Parsed args ->
  bind_server E (host args) (port args) = Raise e ->
  exists r,
    main E = Some r
    /\ final r = Exited 1
    /\ printed r = []
    /\ browser_attempts r = []
    /\ ~ In ServeForever (trace r)
    /\ ~ In ServerClose (trace r).
Proof.
  intros Hparse Hbind. unfold main. rewrite Hparse.
  eexists. split; [reflexivity|]. unfold main_with. rewrite Hbind.
  cbn. repeat split; try reflexivity.
  all: intros [H|[H|[]]]; discriminate H.
Qed.

(** X22: how the process ends once the address is bound.  It exits with
    status 0 exactly when the serve loop is interrupted from the keyboard,
    and then [Shutting down] is the last line printed and closing the
    server the last thing done; the server is closed in no other case; an
    exception out of the serve loop gives status 1; and a loop that does
    not return leaves the process serving. *)
Theorem X22_shutdown (E : Env) (args : Args) :
  parse_args (argv E) defaults = Parsed args ->
  bind_server E (host args) (port args) = Ok tt ->
  exists r,
    main E = Some r
    /\ (final r = Exited 0 <-> serve_forever E = KeyboardInterrupt)
    /\ (In ServerClose (trace r) <-> serve_forever E = KeyboardInterrupt)
    /\ (serve_forever E = KeyboardInterrupt ->
        last (printed r) "" = nl ++ "Shutting down"
        /\ last (trace r) ServeForever = ServerClose)
    /\ (final r = Serving <-> serve_forever E = Forever)
    /\ (final r = Exited 1 <-> exists e, serve_forever E = Failed e).
Proof.
  intros Hparse Hbind. unfold main. rewrite Hparse.
  eexists. split; [reflexivity|]. unfold main_with. rewrite Hbind.
  set (t := (if open args then _ else _)).
  assert (Ht : exists t0, t = ([Chdir (os_getcwd E); Bind (host args) (port args)]
                               ++ t0)%list
                          /\ ~ In ServerClose t0
                          /\ printed {| trace := t0; final := Serving |} <> []).
  { subst t. destruct (open args); [destruct (webbrowser_open E (url_of args))|];
      eexists; (split; [rewrite <- ?app_assoc; reflexivity|]);
      cbn; (split; [|discriminate]); intros H;
      repeat (destruct H as [H|H]; [discriminate H|]); exact H. }
  destruct Ht as (t0 & -> & Hnc & Hpr).
  unfold serve_loop. destruct (serve_forever E) as [| |e0]; cbn [trace final].
  - split; [split; discriminate|]. split.
    { split; [|discriminate]. intros H. exfalso.
      apply in_app_or in H. destruct H as [H|[H|[]]]; [|discriminate H].
      cbn [app In] in H. destruct H as [H|[H|H]]; try discriminate H.
      exact (Hnc H). }
    split; [discriminate|]. split; [tauto|].
    split; [discriminate|]. intros [e He]. discriminate He.
  - split; [tauto|]. split.
    { split; [reflexivity|]. intros _. apply in_or_app. right.
      right. right. left. reflexivity. }
    split.
    { intros _. split.
      - unfold printed. cbn [trace]. rewrite !flat_map_app.
        cbn [flat_map app]. apply last_last.
      - change [ServeForever; Print (nl ++ "Shutting down"); ServerClose]
          with ([ServeForever; Print (nl ++ "Shutting down")] ++ [ServerClose])%list.
        rewrite app_assoc. apply last_last. }
    split; [split; discriminate|]. split; [discriminate|].
    intros [e He]. discriminate He.
  - split; [split; discriminate|]. split.
    { split; [|discriminate]. intros H. exfalso.
      apply in_app_or in H. destruct H as [H|[H|[]]]; [|discriminate H].
      cbn [app In] in H. destruct H as [H|[H|H]]; try discriminate H.
      exact (Hnc H). }
    split; [discriminate|]. split; [split; discriminate|].
    split; [intros _; exists e0; reflexivity|reflexivity].
Qed.

End ProcessFacts.

Lemma X19_options_not_given_keep_defaults_witness :
  (Server.open {| Server.port := 8000; Server.host := "localhost";
                  Server.open := true |} = true
   <-> In "--open" ["--host"; "localhost"; "--open"])
  /\ (~ In "--port" ["--host"; "localhost"; "--open"] ->
      ~ In "-p" ["--host"; "localhost"; "--open"] ->
      Server.port {| Server.port := 8000; Server.host := "localhost";
                     Server.open := true |} = 8000%Z)
  /\ (~ In "--host" ["--host"; "localhost"; "--open"] ->
      Server.host {| Server.port := 8000; Server.host := "localhost";
                     Server.open := true |} = "0.0.0.0").
Proof.
  apply (X19_options_not_given_keep_defaults
           ["--host"; "localhost"; "--open"]
           {| Server.port := 8000; Server.host := "localhost";
              Server.open := true |}).
  reflexivity.
Defined.

Lemma X20_start_up_witness :
  exists r,
    Server.main Scenario.headless = Some r
    /\ Server.bound r = [("0.0.0.0", 8080%Z)]
    /\ Server.browser_attempts r = ["http://127.0.0.1:8080/"].
Proof.
  destruct (X20_start_up Scenario.headless
              {| Server.port := 8080; Server.host := "0.0.0.0";
                 Server.open := true |} eq_refl eq_refl)
    as (r & Hmain & Hbound & _ & _ & Hopen & _).
  exists r. split; [exact Hmain|]. split; [exact Hbound|].
  apply Hopen. left. reflexivity.
Defined.

Lemma X21_bind_failure_witness :
  exists r,
    Server.main Scenario.port_in_use = Some r
    /\ Server.final r = Server.Exited 1
    /\ Server.printed r = []
    /\ Server.browser_attempts r = []
    /\ ~ In Server.ServeForever (Server.trace r)
    /\ ~ In Server.ServerClose (Server.trace r).
Proof.
  apply (X21_bind_failure Scenario.port_in_use
           {| Server.port := 8000; Server.host := "0.0.0.0";
              Server.open := true |}
           (Exc "[Errno 98] Address already in use"));
    reflexivity.
Defined.

Lemma X22_shutdown_witness :
  exists r,
    Server.main Scenario.headless = Some r
    /\ Server.final r = Server.Exited 0
    /\ last (Server.printed r) "" = nl ++ "Shutting down"
    /\ last (Server.trace r) Server.ServeForever = Server.ServerClose.
Proof.
  destruct (X22_shutdown Scenario.headless
              {| Server.port := 8080; Server.host := "0.0.0.0";
                 Server.open := true |} eq_refl eq_refl)
    as (r & Hmain & Hfinal & _ & Hlast & _).
  exists r. split; [exact Hmain|].
  split; [apply Hfinal; reflexivity|]. apply Hlast. reflexivity.
Defined.
